(** * The MaxMind DB reader extension (src/extension/maxminddb.c)

    A shallow embedding of the C extension that binds libmaxminddb to
    Python: the address converter [ip_converter], the lookup bridge
    [get_record], the entry decoder [from_entry_data_list] with
    [from_map], [from_array] and [from_uint128], and the session
    life cycle ([Reader_close] and its callers).

    libmaxminddb, libc and the CPython API are external to the
    extension.  The engine entry points, [getaddrinfo], [inet_ntop] and
    the address-family constants are Section variables of [Bridge]; the
    CPython constructors used by the decoder are modelled by their
    documented behaviour.  The decoder of the first part runs with
    every allocation giving memory; Module [Alloc] is the decoder with
    the [PyErr_NoMemory] exits of [from_map], [from_array] and
    [from_uint128]. *)

From Stdlib Require Import ZArith List String Ascii Strings.Byte Bool Lia.
From Stdlib Require DecimalString.
Import ListNotations.

Set Warnings "-register-all".
Local Open Scope Z_scope.

(** ** Outcomes of a call into the extension *)

(** The Python exceptions the extension raises.  [MaxMindDB_error] is
    [maxminddb.errors.InvalidDatabaseError], resolved at module
    initialisation. *)
Inductive PyExc : Type :=
| PyExc_ValueError
| PyExc_TypeError
| PyExc_RuntimeError
| PyExc_IOError
| PyExc_SystemError
| PyExc_UnicodeDecodeError
| PyExc_MemoryError
| MaxMindDB_error.

(** The ways a C expression of the extension can leave defined
    behaviour. *)
Inductive undefined_behaviour : Type :=
| NullDeref        (* member access through a NULL node pointer *)
| UnionMember      (* a union member read that is not the one stored *)
| OutOfBounds.     (* a buffer read past the bytes it holds *)

(** [Ok a]: the call returns [a].  [Raise e msg]: the call returns NULL
    (or -1) with the exception [e] set.  [Undefined u]: the C program
    has no defined result.  [OutOfFuel]: the recursion bound of the
    embedding was too small (never the case for [decode], see
    [decode_total]). *)
Inductive result (A : Type) : Type :=
| Ok (a : A)
| Raise (e : PyExc) (msg : string)
| Undefined (u : undefined_behaviour)
| OutOfFuel.

Arguments Ok {A} a.
Arguments Raise {A} e msg.
Arguments Undefined {A} u.
Arguments OutOfFuel {A}.

Definition bind {A B : Type} (r : result A) (k : A -> result B) : result B :=
  match r with
  | Ok a => k a
  | Raise e msg => Raise e msg
  | Undefined u => Undefined u
  | OutOfFuel => OutOfFuel
  end.

Notation "x <- r ;; k" := (bind r (fun x => k))
  (at level 61, r at next level, right associativity).
Notation "' p <- r ;; k" := (bind r (fun x => let 'p := x in k))
  (at level 61, p pattern, r at next level, right associativity).

Definition is_ok {A : Type} (r : result A) : bool :=
  match r with Ok _ => true | _ => false end.

(** ** Python values built by the extension *)

(** A Python [str], as its sequence of code points. *)
Definition pystr : Type := list Z.

(** The C doubles handed to [PyFloat_FromDouble]: a [double] member
    given by its binary64 bits, or a [float] member (binary32 bits)
    widened by the implicit conversion at the call. *)
Inductive c_double : Type :=
| Double_bits (bits : Z)
| Widened_float (bits : Z).

(** A list slot is [None] while it still holds the NULL that
    [PyList_New] put there. *)
Inductive PyObject : Type :=
| Py_None
| PyBool (b : bool)
| PyLong (v : Z)
| PyFloat (d : c_double)
| PyUnicode (s : pystr)
| PyByteArray (b : list byte)
| PyTuple (items : list PyObject)
| PyList (slots : list (option PyObject))
| PyDict (entries : list (pystr * PyObject)).

Definition pystr_eqb (a b : pystr) : bool :=
  if list_eq_dec Z.eq_dec a b then true else false.

(** [PyDict_SetItem]: a key already present keeps its position and gets
    the new value, a new key goes to the end (dictionaries keep
    insertion order). *)
Fixpoint PyDict_SetItem (d : list (pystr * PyObject)) (key : pystr)
    (value : PyObject) : list (pystr * PyObject) :=
  match d with
  | [] => [(key, value)]
  | (k, v) :: d' =>
      if pystr_eqb k key then (k, value) :: d'
      else (k, v) :: PyDict_SetItem d' key value
  end.

(** [PyList_New n] when it gives a list: [n] NULL slots. *)
Definition PyList_New (n : Z) : list (option PyObject) :=
  repeat None (Z.to_nat n).

(** [PyList_SetItem l i v] for an index inside the list. *)
Fixpoint set_slot (l : list (option PyObject)) (i : nat) (v : PyObject)
    : list (option PyObject) :=
  match l, i with
  | [], _ => []
  | _ :: l', O => Some v :: l'
  | x :: l', S i' => x :: set_slot l' i' v
  end.

Definition PyList_SetItem (l : list (option PyObject)) (i : Z) (v : PyObject)
    : list (option PyObject) :=
  set_slot l (Z.to_nat i) v.

(** ** UTF-8 decoding, as [PyUnicode_FromStringAndSize] does it *)

Definition byte_val (b : byte) : Z := Z.of_N (Byte.to_N b).

Definition is_cont (b : Z) : bool := (128 <=? b) && (b <=? 191).

(** Strict UTF-8: shortest forms only, no surrogates, nothing above
    U+10FFFF. *)
Fixpoint utf8_decode (bs : list Z) : option pystr :=
  match bs with
  | [] => Some []
  | b0 :: t =>
      if b0 <? 128 then option_map (cons b0) (utf8_decode t)
      else if (194 <=? b0) && (b0 <=? 223) then
        match t with
        | b1 :: t1 =>
            if is_cont b1
            then option_map (cons ((b0 - 192) * 64 + (b1 - 128)))
                            (utf8_decode t1)
            else None
        | _ => None
        end
      else if (224 <=? b0) && (b0 <=? 239) then
        match t with
        | b1 :: b2 :: t2 =>
            let cp := (b0 - 224) * 4096 + (b1 - 128) * 64 + (b2 - 128) in
            if is_cont b1 && is_cont b2 && (2048 <=? cp)
               && negb ((55296 <=? cp) && (cp <=? 57343))
            then option_map (cons cp) (utf8_decode t2)
            else None
        | _ => None
        end
      else if (240 <=? b0) && (b0 <=? 244) then
        match t with
        | b1 :: b2 :: b3 :: t3 =>
            let cp := (b0 - 240) * 262144 + (b1 - 128) * 4096
                      + (b2 - 128) * 64 + (b3 - 128) in
            if is_cont b1 && is_cont b2 && is_cont b3
               && (65536 <=? cp) && (cp <=? 1114111)
            then option_map (cons cp) (utf8_decode t3)
            else None
        | _ => None
        end
      else None
  end.

(** Reading [size] bytes through a pointer into a buffer. *)
Definition read_buffer (buf : list byte) (size : Z) : result (list byte) :=
  if size <=? Z.of_nat (List.length buf)
  then Ok (firstn (Z.to_nat size) buf)
  else Undefined OutOfBounds.

(** [PyUnicode_FromStringAndSize (u, size)]; the text of the codec's
    message is not represented. *)
Definition PyUnicode_FromStringAndSize (u : list byte) (size : Z)
    : result pystr :=
  bs <- read_buffer u size ;;
  match utf8_decode (map byte_val bs) with
  | Some s => Ok s
  | None => Raise PyExc_UnicodeDecodeError "invalid utf-8"
  end.

(** [PyByteArray_FromStringAndSize (bytes, size)]. *)
Definition PyByteArray_FromStringAndSize (b : list byte) (size : Z)
    : result PyObject :=
  bs <- read_buffer b size ;;
  Ok (PyByteArray bs).

(** ** The engine's entry data list (maxminddb.h) *)

Definition MMDB_DATA_TYPE_UTF8_STRING : Z := 2.
Definition MMDB_DATA_TYPE_DOUBLE : Z := 3.
Definition MMDB_DATA_TYPE_BYTES : Z := 4.
Definition MMDB_DATA_TYPE_UINT16 : Z := 5.
Definition MMDB_DATA_TYPE_UINT32 : Z := 6.
Definition MMDB_DATA_TYPE_MAP : Z := 7.
Definition MMDB_DATA_TYPE_INT32 : Z := 8.
Definition MMDB_DATA_TYPE_UINT64 : Z := 9.
Definition MMDB_DATA_TYPE_UINT128 : Z := 10.
Definition MMDB_DATA_TYPE_ARRAY : Z := 11.
Definition MMDB_DATA_TYPE_BOOLEAN : Z := 14.
Definition MMDB_DATA_TYPE_FLOAT : Z := 15.

Definition MMDB_SUCCESS : Z := 0.
Definition MMDB_IPV6_LOOKUP_IN_IPV4_DATABASE_ERROR : Z := 11.

(** [mmdb_uint128_t]: [uint8_t[16]] when [MMDB_UINT128_IS_BYTE_ARRAY],
    an [unsigned __int128] otherwise. *)
Inductive mmdb_uint128_t : Type :=
| Uint128_bytes (a : list byte)
| Uint128_scalar (v : Z).

(** The anonymous union of [MMDB_entry_data_s], by the member stored.
    [utf8_string] and [bytes] are both the address of a buffer in the
    data section and share [U_buffer]. *)
Inductive entry_union : Type :=
| U_buffer (buf : list byte)
| U_double (bits : Z)
| U_float (bits : Z)
| U_uint16 (v : Z)
| U_uint32 (v : Z)
| U_int32 (v : Z)
| U_uint64 (v : Z)
| U_uint128 (v : mmdb_uint128_t)
| U_boolean (b : bool).

Record MMDB_entry_data_s : Type := mk_entry_data {
  payload : entry_union;
  data_size : Z;          (* uint32_t *)
  type : Z                (* uint32_t *)
}.

(** A node pointer [MMDB_entry_data_list_s *]: the nodes from the one
    pointed at to the end of the list; [[]] is NULL. *)
Definition cursor : Type := list MMDB_entry_data_s.

(** [p->entry_data] and [p->next]. *)
Definition entry_data (p : cursor) : result MMDB_entry_data_s :=
  match p with
  | [] => Undefined NullDeref
  | e :: _ => Ok e
  end.

Definition next (p : cursor) : result cursor :=
  match p with
  | [] => Undefined NullDeref
  | _ :: p' => Ok p'
  end.

(** Union member reads. *)
Definition utf8_string (e : MMDB_entry_data_s) : result (list byte) :=
  match payload e with U_buffer b => Ok b | _ => Undefined UnionMember end.
Definition bytes (e : MMDB_entry_data_s) : result (list byte) :=
  match payload e with U_buffer b => Ok b | _ => Undefined UnionMember end.
Definition double_value (e : MMDB_entry_data_s) : result c_double :=
  match payload e with
  | U_double b => Ok (Double_bits b)
  | _ => Undefined UnionMember
  end.
Definition float_value (e : MMDB_entry_data_s) : result c_double :=
  match payload e with
  | U_float b => Ok (Widened_float b)
  | _ => Undefined UnionMember
  end.
Definition uint16 (e : MMDB_entry_data_s) : result Z :=
  match payload e with U_uint16 v => Ok v | _ => Undefined UnionMember end.
Definition uint32 (e : MMDB_entry_data_s) : result Z :=
  match payload e with U_uint32 v => Ok v | _ => Undefined UnionMember end.
Definition int32 (e : MMDB_entry_data_s) : result Z :=
  match payload e with U_int32 v => Ok v | _ => Undefined UnionMember end.
Definition uint64 (e : MMDB_entry_data_s) : result Z :=
  match payload e with U_uint64 v => Ok v | _ => Undefined UnionMember end.
Definition uint128 (e : MMDB_entry_data_s) : result mmdb_uint128_t :=
  match payload e with U_uint128 v => Ok v | _ => Undefined UnionMember end.
Definition boolean (e : MMDB_entry_data_s) : result bool :=
  match payload e with U_boolean b => Ok b | _ => Undefined UnionMember end.

(** ** from_uint128 *)

Definition two64 : Z := 2 ^ 64.

(** [for (i = lo; i < lo + 8; i++) acc = (acc << 8) | a[i];] on a
    [uint64_t] accumulator. *)
Fixpoint shift_in (bs : list byte) (acc : Z) : Z :=
  match bs with
  | [] => acc
  | b :: bs' => shift_in bs' (Z.lor (Z.shiftl acc 8 mod two64) (byte_val b))
  end.

Definition hex_digits : list ascii :=
  ["0"; "1"; "2"; "3"; "4"; "5"; "6"; "7";
   "8"; "9"; "A"; "B"; "C"; "D"; "E"; "F"]%char.

(** The conversion [%016llX] of a value below [16 ^ width]. *)
Fixpoint to_hex (width : nat) (v : Z) : list ascii :=
  match width with
  | O => []
  | S w => to_hex w (v / 16) ++ [nth (Z.to_nat (v mod 16)) hex_digits "0"%char]
  end.

Definition hex_value (c : ascii) : option Z :=
  let n := Z.of_nat (nat_of_ascii c) in
  if (48 <=? n) && (n <=? 57) then Some (n - 48)
  else if (65 <=? n) && (n <=? 70) then Some (n - 55)
  else if (97 <=? n) && (n <=? 102) then Some (n - 87)
  else None.

(** The digits of [PyLong_FromString (s, NULL, 16)]. *)
Fixpoint of_hex (s : list ascii) (acc : Z) : option Z :=
  match s with
  | [] => Some acc
  | c :: s' =>
      match hex_value c with
      | Some d => of_hex s' (acc * 16 + d)
      | None => None
      end
  end.

Definition PyLong_FromString_16 (s : list ascii) : result PyObject :=
  match s with
  | [] => Raise PyExc_ValueError "invalid literal for int() with base 16"
  | _ =>
      match of_hex s 0 with
      | Some v => Ok (PyLong v)
      | None => Raise PyExc_ValueError "invalid literal for int() with base 16"
      end
  end.

(** The two halves, by build configuration. *)
Definition uint128_high (v : mmdb_uint128_t) : Z :=
  match v with
  | Uint128_bytes a => shift_in (firstn 8 a) 0
  | Uint128_scalar x => Z.shiftr x 64 mod two64
  end.

Definition uint128_low (v : mmdb_uint128_t) : Z :=
  match v with
  | Uint128_bytes a => shift_in (firstn 8 (skipn 8 a)) 0
  | Uint128_scalar x => x mod two64
  end.

(** [from_uint128] when [malloc (33)] gives the buffer; the exit of
    lines 597-600 is in [Alloc.from_uint128]. *)
Definition from_uint128 (e : MMDB_entry_data_s) : result PyObject :=
  v <- uint128 e ;;
  let high := uint128_high v in
  let low := uint128_low v in
  let num_str := to_hex 16 high ++ to_hex 16 low in
  PyLong_FromString_16 num_str.

(** ** from_entry_data_list, from_map, from_array *)

Definition corrupt_msg : string :=
  "Error while looking up data. Your database may be corrupt or you have found a bug in libmaxminddb.".

Definition string_of_Z (z : Z) : string :=
  DecimalString.NilZero.string_of_int (Z.to_int z).

(** A [uint32_t] read as the [int] that [%d] prints. *)
Definition int_of_uint32 (t : Z) : Z :=
  let u := t mod 2 ^ 32 in
  if u <? 2 ^ 31 then u else u - 2 ^ 32.

Definition invalid_type_msg (t : Z) : string :=
  ("Invalid data type arguments: " ++ string_of_Z (int_of_uint32 t))%string.

Section Loops.

(** The recursive call [from_entry_data_list (entry_data_list)]: it
    takes the shared cursor and gives back the value with the cursor
    where the call left it. *)
Variable recur : cursor -> result (PyObject * cursor).

(** The loop of [from_map] with [n] iterations to go.  The test
    [&& entry_data_list] of the loop header is on the address of the
    caller's cursor variable, which is never NULL, so it does not
    appear. *)
Fixpoint from_map_loop (n : nat) (p : cursor)
    (py_obj : list (pystr * PyObject)) : result (PyObject * cursor) :=
  match n with
  | O => Ok (PyDict py_obj, p)
  | S n' =>
      p1 <- next p ;;
      e <- entry_data p1 ;;
      u <- utf8_string e ;;
      key <- PyUnicode_FromStringAndSize u (data_size e) ;;
      p2 <- next p1 ;;
      ' (value, p3) <- recur p2 ;;
      from_map_loop n' p3 (PyDict_SetItem py_obj key value)
  end.

(** [from_map] when [PyDict_New] gives a dictionary; the exit of lines
    514-517 is in [Alloc.from_map]. *)
Definition from_map (p : cursor) : result (PyObject * cursor) :=
  e <- entry_data p ;;
  let map_size := data_size e in
  from_map_loop (Z.to_nat map_size) p [].

(** The loop of [from_array] at index [i] with [n] iterations to go. *)
Fixpoint from_array_loop (n : nat) (i : Z) (p : cursor)
    (py_obj : list (option PyObject)) : result (PyObject * cursor) :=
  match n with
  | O => Ok (PyList py_obj, p)
  | S n' =>
      p1 <- next p ;;
      ' (value, p2) <- recur p1 ;;
      from_array_loop n' (i + 1) p2 (PyList_SetItem py_obj i value)
  end.

(** [from_array] when [PyList_New] gives a list; the exit of lines
    557-560 is in [Alloc.from_array]. *)
Definition from_array (p : cursor) : result (PyObject * cursor) :=
  e <- entry_data p ;;
  let size := data_size e in
  from_array_loop (Z.to_nat size) 0 p (PyList_New size).

End Loops.

(** The cases of the switch of [from_entry_data_list] that build a
    value from the node alone; [default] is the last line.  [long] is
    taken to be 64 bits wide, so that [PyLong_FromLong] keeps a
    [uint32_t]. *)
Definition from_scalar (e : MMDB_entry_data_s) : result PyObject :=
  let t := type e in
  if t =? MMDB_DATA_TYPE_UTF8_STRING then
    u <- utf8_string e ;;
    s <- PyUnicode_FromStringAndSize u (data_size e) ;;
    Ok (PyUnicode s)
  else if t =? MMDB_DATA_TYPE_BYTES then
    b <- bytes e ;;
    PyByteArray_FromStringAndSize b (data_size e)
  else if t =? MMDB_DATA_TYPE_DOUBLE then
    d <- double_value e ;; Ok (PyFloat d)
  else if t =? MMDB_DATA_TYPE_FLOAT then
    d <- float_value e ;; Ok (PyFloat d)
  else if t =? MMDB_DATA_TYPE_UINT16 then
    v <- uint16 e ;; Ok (PyLong v)
  else if t =? MMDB_DATA_TYPE_UINT32 then
    v <- uint32 e ;; Ok (PyLong v)
  else if t =? MMDB_DATA_TYPE_BOOLEAN then
    b <- boolean e ;; Ok (PyBool b)
  else if t =? MMDB_DATA_TYPE_UINT64 then
    v <- uint64 e ;; Ok (PyLong v)
  else if t =? MMDB_DATA_TYPE_UINT128 then
    from_uint128 e
  else if t =? MMDB_DATA_TYPE_INT32 then
    v <- int32 e ;; Ok (PyLong v)
  else Raise MaxMindDB_error (invalid_type_msg t).

(** [from_entry_data_list]: the value, and the cursor where the call
    leaves it (on the last node it used).  [fuel] bounds the depth of
    the recursion. *)
Fixpoint from_entry_data_list (fuel : nat) (p : cursor)
    : result (PyObject * cursor) :=
  match fuel with
  | O => OutOfFuel
  | S fuel' =>
      match p with
      | [] => Raise MaxMindDB_error corrupt_msg
      | e :: _ =>
          if type e =? MMDB_DATA_TYPE_MAP then
            from_map (from_entry_data_list fuel') p
          else if type e =? MMDB_DATA_TYPE_ARRAY then
            from_array (from_entry_data_list fuel') p
          else
            v <- from_scalar e ;; Ok (v, p)
      end
  end.

(** The decoder as its callers run it: the recursion is never deeper
    than the list is long. *)
Definition decode (p : cursor) : result PyObject :=
  ' (v, _) <- from_entry_data_list (S (List.length p)) p ;; Ok v.

(** Nodes for examples. *)
Definition map_node (n : Z) : MMDB_entry_data_s :=
  mk_entry_data (U_uint32 0) n MMDB_DATA_TYPE_MAP.
Definition array_node (n : Z) : MMDB_entry_data_s :=
  mk_entry_data (U_uint32 0) n MMDB_DATA_TYPE_ARRAY.
Definition string_node (b : list byte) : MMDB_entry_data_s :=
  mk_entry_data (U_buffer b) (Z.of_nat (List.length b))
                MMDB_DATA_TYPE_UTF8_STRING.
Definition bytes_node (b : list byte) : MMDB_entry_data_s :=
  mk_entry_data (U_buffer b) (Z.of_nat (List.length b)) MMDB_DATA_TYPE_BYTES.
Definition uint32_node (v : Z) : MMDB_entry_data_s :=
  mk_entry_data (U_uint32 v) 4 MMDB_DATA_TYPE_UINT32.

(** ** Addresses, sessions and the lookup bridge *)

(** [struct sockaddr_storage], as far as the extension uses it: the
    family and the address bytes ([sin_addr] or [sin6_addr]).  The
    zero-initialised value has family 0. *)
Record sockaddr_storage : Type := mk_sockaddr {
  ss_family : Z;
  s_addr : list byte
}.

(** What [ip_converter] can see of its argument: a [str], with what
    [PyUnicode_AsUTF8AndSize] gives for it, or another object, with its
    [packed] attribute when it has one. *)
Inductive py_attr : Type :=
| Attr_bytes (b : list byte)
| Attr_other.

Inductive py_arg : Type :=
| Arg_str (utf8 : option (list byte))
| Arg_object (packed : option py_attr).

(** An open engine handle [MMDB_s]. *)
Record MMDB_s : Type := mk_mmdb {
  db_file : string;
  ip_version : Z          (* metadata.ip_version *)
}.

Record MMDB_lookup_result_s : Type := mk_lookup_result {
  found_entry : bool;
  entry : Z;
  netmask : N             (* uint16_t *)
}.

Record Reader_obj : Type := mk_reader {
  mmdb : option MMDB_s;   (* None is NULL *)
  closed : bool
}.

(** Calls that release the engine handle, in the order they are made. *)
Inductive engine_call : Type :=
| Call_MMDB_close (db : MMDB_s)
| Call_free (db : MMDB_s).

Fixpoint strlen (s : list byte) : Z :=
  match s with
  | [] => 0
  | b :: s' => if Byte.eqb b x00 then 0 else 1 + strlen s'
  end.

Definition closed_msg : string := "Attempt to read from a closed MaxMind DB.".

Section Bridge.

(** <sys/socket.h> *)
Variables AF_INET AF_INET6 : Z.

(** [getaddrinfo (ipstr, NULL, &hints, &addresses)] with numeric-host
    hints: the status and the first address. *)
Variable getaddrinfo : list byte -> Z * option sockaddr_storage.

(** [inet_ntop (family, addr, dst, INET6_ADDRSTRLEN)]. *)
Variable inet_ntop : Z -> list byte -> option string.

(** libmaxminddb *)
Variable MMDB_lookup_sockaddr :
  MMDB_s -> sockaddr_storage -> MMDB_lookup_result_s * Z.
Variable MMDB_get_entry_data_list : MMDB_s -> Z -> Z * cursor.
Variable MMDB_get_metadata_as_entry_data_list : MMDB_s -> cursor.
Variable MMDB_strerror : Z -> string.

(** [PyObject_Call (&Metadata_Type, args, metadata_dict)]. *)
Variable Metadata_call : list (pystr * PyObject) -> result PyObject.

Definition ip_converter (obj : py_arg) : result sockaddr_storage :=
  match obj with
  | Arg_str None =>
      Raise PyExc_TypeError "argument 1 contains an invalid string"
  | Arg_str (Some ipstr) =>
      if negb (strlen ipstr =? Z.of_nat (List.length ipstr)) then
        Raise PyExc_TypeError
              "argument 1 contains an embedded null character"
      else
        let '(gai_status, addresses) := getaddrinfo ipstr in
        if negb (gai_status =? 0) then
          Raise PyExc_ValueError
                ("'" ++ string_of_list_byte ipstr
                 ++ "' does not appear to be an IPv4 or IPv6 address.")%string
        else
          match addresses with
          | None =>
              Raise PyExc_RuntimeError
                "getaddrinfo was successful but failed to set the addrinfo"
          | Some ai_addr => Ok ai_addr
          end
  | Arg_object None =>
      Raise PyExc_TypeError
            "argument 1 must be a string or ipaddress object"
  | Arg_object (Some Attr_other) =>
      Raise PyExc_TypeError
            "argument 1 must be a string or ipaddress object"
  | Arg_object (Some (Attr_bytes bytes)) =>
      let len := Z.of_nat (List.length bytes) in
      if len =? 16 then Ok (mk_sockaddr AF_INET6 bytes)
      else if len =? 4 then Ok (mk_sockaddr AF_INET bytes)
      else
        Raise PyExc_ValueError
              "argument 1 returned an unexpected packed length for address"
  end.

(** [PyArg_ParseTuple (args, "O&", ip_converter, &ip_address_ss)]. *)
Definition parse_args (args : list py_arg) : result sockaddr_storage :=
  match args with
  | [obj] => ip_converter obj
  | _ => Raise PyExc_TypeError "function takes exactly 1 argument"
  end.

Definition format_sockaddr (sa : sockaddr_storage) : result string :=
  match inet_ntop (ss_family sa) (s_addr sa) with
  | Some dst => Ok dst
  | None => Raise PyExc_RuntimeError "unable to format IP address"
  end.

(** The prefix length reported for a lookup that did not fail. *)
Definition corrected_prefix_len (sa_family : Z) (db : MMDB_s)
    (raw_netmask : N) : Z :=
  let prefix_len := Z.of_N raw_netmask in
  if (sa_family =? AF_INET) && (ip_version db =? 6) then
    if prefix_len >=? 96 then prefix_len - 96 else 0
  else prefix_len.

(** [get_record]: the record and the [int] returned; a [Raise] is the
    return of -1. *)
Definition get_record (self : Reader_obj) (args : list py_arg)
    : result (PyObject * Z) :=
  match mmdb self with
  | None => Raise PyExc_ValueError closed_msg
  | Some db =>
      ip_address <- parse_args args ;;
      if ss_family ip_address =? 0 then
        Raise PyExc_ValueError "Error parsing argument"
      else
        let '(result, mmdb_error) := MMDB_lookup_sockaddr db ip_address in
        if negb (mmdb_error =? MMDB_SUCCESS) then
          let exception :=
            if mmdb_error =? MMDB_IPV6_LOOKUP_IN_IPV4_DATABASE_ERROR
            then PyExc_ValueError else MaxMindDB_error in
          ipstr <- format_sockaddr ip_address ;;
          Raise exception
                ("Error looking up " ++ ipstr ++ ". "
                 ++ MMDB_strerror mmdb_error)%string
        else
          let prefix_len :=
            corrected_prefix_len (ss_family ip_address) db
                                 (netmask result) in
          if negb (found_entry result) then Ok (Py_None, prefix_len)
          else
            let '(status, entry_data_list) :=
              MMDB_get_entry_data_list db (entry result) in
            if negb (status =? MMDB_SUCCESS) then
              ipstr <- format_sockaddr ip_address ;;
              Raise MaxMindDB_error
                    ("Error while looking up data for " ++ ipstr ++ ". "
                     ++ MMDB_strerror status)%string
            else
              record <- decode entry_data_list ;;
              Ok (record, prefix_len)
  end.

(** A return of -1 from [get_record] is read as failure by both
    callers; with no exception set the interpreter raises
    [SystemError]. *)
Definition no_exception_set : string :=
  "NULL result without error in PyObject_Call".

Definition Reader_get (self : Reader_obj) (args : list py_arg)
    : result PyObject :=
  ' (record, prefix_len) <- get_record self args ;;
  if prefix_len =? -1 then Raise PyExc_SystemError no_exception_set
  else Ok record.

Definition Reader_get_with_prefix_len (self : Reader_obj)
    (args : list py_arg) : result PyObject :=
  ' (record, prefix_len) <- get_record self args ;;
  if prefix_len =? -1 then Raise PyExc_SystemError no_exception_set
  else Ok (PyTuple [record; PyLong prefix_len]).

Definition Reader_metadata (self : Reader_obj) : result PyObject :=
  match mmdb self with
  | None => Raise PyExc_IOError closed_msg
  | Some db =>
      let entry_data_list := MMDB_get_metadata_as_entry_data_list db in
      match decode entry_data_list with
      | Ok (PyDict metadata_dict) => Metadata_call metadata_dict
      | Undefined u => Undefined u
      | OutOfFuel => OutOfFuel
      | _ => Raise MaxMindDB_error "Error decoding metadata."
      end
  end.

(** [Reader_close]: the value returned, the session afterwards and
    the release calls made. *)
Definition Reader_close (self : Reader_obj)
    : PyObject * Reader_obj * list engine_call :=
  match mmdb self with
  | Some db =>
      (Py_None, mk_reader None true, [Call_MMDB_close db; Call_free db])
  | None => (Py_None, mk_reader (mmdb self) true, [])
  end.

Definition Reader__enter__ (self : Reader_obj) : result Reader_obj :=
  if closed self then
    Raise PyExc_ValueError "Attempt to reopen a closed MaxMind DB."
  else Ok self.

Definition Reader__exit__ (self : Reader_obj)
    : PyObject * Reader_obj * list engine_call :=
  let '(_, self', calls) := Reader_close self in (Py_None, self', calls).

(** [n] calls of [close ()] in a row: the session at the end and all
    the release calls made. *)
Fixpoint close_times (n : nat) (self : Reader_obj)
    : Reader_obj * list engine_call :=
  match n with
  | O => (self, [])
  | S n' =>
      let '(_, self', calls) := Reader_close self in
      let '(self'', calls') := close_times n' self' in
      (self'', calls ++ calls')
  end.

End Bridge.

(** ** The decoder with its allocation exits *)

Module Alloc.

Section Allocation.

(** Whether the allocation made by the call on a cursor gives memory:
    [PyDict_New ()] in [from_map], [PyList_New (size)] in [from_array],
    [malloc (33)] in [from_uint128].  The cursor names the call: no two
    calls of one run are on the same cursor. *)
Variable allocated : cursor -> bool.

(** [PyErr_NoMemory (); return NULL;] *)
Definition no_memory {A : Type} : result A :=
  Raise PyExc_MemoryError EmptyString.

Definition from_uint128 (p : cursor) : result PyObject :=
  e <- entry_data p ;;
  v <- uint128 e ;;
  let high := uint128_high v in
  let low := uint128_low v in
  if negb (allocated p) then no_memory
  else
    let num_str := to_hex 16 high ++ to_hex 16 low in
    PyLong_FromString_16 num_str.

Definition from_map (recur : cursor -> result (PyObject * cursor))
    (p : cursor) : result (PyObject * cursor) :=
  if negb (allocated p) then no_memory
  else
    e <- entry_data p ;;
    let map_size := data_size e in
    from_map_loop recur (Z.to_nat map_size) p [].

Definition from_array (recur : cursor -> result (PyObject * cursor))
    (p : cursor) : result (PyObject * cursor) :=
  e <- entry_data p ;;
  let size := data_size e in
  if negb (allocated p) then no_memory
  else from_array_loop recur (Z.to_nat size) 0 p (PyList_New size).

Fixpoint from_entry_data_list (fuel : nat) (p : cursor)
    : result (PyObject * cursor) :=
  match fuel with
  | O => OutOfFuel
  | S fuel' =>
      match p with
      | [] => Raise MaxMindDB_error corrupt_msg
      | e :: _ =>
          if type e =? MMDB_DATA_TYPE_MAP then
            from_map (from_entry_data_list fuel') p
          else if type e =? MMDB_DATA_TYPE_ARRAY then
            from_array (from_entry_data_list fuel') p
          else if type e =? MMDB_DATA_TYPE_UINT128 then
            v <- from_uint128 p ;; Ok (v, p)
          else
            v <- from_scalar e ;; Ok (v, p)
      end
  end.

Definition decode (p : cursor) : result PyObject :=
  ' (v, _) <- from_entry_data_list (S (List.length p)) p ;; Ok v.

End Allocation.

End Alloc.

(** ** Reader_dealloc and Metadata_init *)

(** [Reader_dealloc]: the release calls made before the object is
    freed. *)
Definition Reader_dealloc (self : Reader_obj) : list engine_call :=
  match mmdb self with
  | Some _ => let '(_, _, calls) := Reader_close self in calls
  | None => []
  end.

Module Metadata.

(** [Metadata_obj]. *)
Record obj : Type := mk {
  binary_format_major_version : PyObject;
  binary_format_minor_version : PyObject;
  build_epoch : PyObject;
  database_type : PyObject;
  description : PyObject;
  ip_version : PyObject;
  languages : PyObject;
  node_count : PyObject;
  record_size : PyObject
}.

Definition kwlist : list string :=
  ["binary_format_major_version"; "binary_format_minor_version";
   "build_epoch"; "database_type"; "description"; "ip_version";
   "languages"; "node_count"; "record_size"]%string.

(** A C string of the keyword list as a Python [str]. *)
Definition pystr_of_string (s : string) : pystr :=
  map (fun c => Z.of_nat (nat_of_ascii c)) (list_ascii_of_string s).

(** What [Metadata_init] can come to: the object filled in, the
    [TypeError] of [PyArg_ParseTupleAndKeywords] (return of -1), or the
    use of a local pointer that was never assigned. *)
Inductive init_result : Type :=
| Init_ok (self : obj)
| Init_TypeError
| Init_uninitialised (local : string).

(** [PyArg_ParseTupleAndKeywords (args, kwds, "|OOOOOOOOO", kwlist, ...)]
    with an empty [args]: a keyword outside [kwlist] is refused. *)
Definition known_keyword (key : pystr) : bool :=
  existsb (fun name => pystr_eqb (pystr_of_string name) key) kwlist.

(** The local a keyword is parsed into: assigned when the keyword is
    given, left as declared when it is not (every argument is optional
    after [|]). *)
Definition local (kwds : list (pystr * PyObject)) (name : string)
    : PyObject + string :=
  match find (fun kv => pystr_eqb (fst kv) (pystr_of_string name)) kwds with
  | Some kv => inl (snd kv)
  | None => inr name
  end.

Definition use {A : Type} (x : PyObject + string)
    (k : PyObject -> A + string) : A + string :=
  match x with
  | inl v => k v
  | inr name => inr name
  end.

(** [Metadata_init], called with no positional argument and the
    keywords [kwds]. *)
Definition Metadata_init (kwds : list (pystr * PyObject)) : init_result :=
  if negb (forallb (fun kv => known_keyword (fst kv)) kwds) then
    Init_TypeError
  else
    match
      use (local kwds "binary_format_major_version") (fun a =>
      use (local kwds "binary_format_minor_version") (fun b =>
      use (local kwds "build_epoch") (fun c =>
      use (local kwds "database_type") (fun d =>
      use (local kwds "description") (fun e =>
      use (local kwds "ip_version") (fun f =>
      use (local kwds "languages") (fun g =>
      use (local kwds "node_count") (fun h =>
      use (local kwds "record_size") (fun i =>
      inl (mk a b c d e f g h i))))))))))
    with
    | inl self => Init_ok self
    | inr name => Init_uninitialised name
    end.

End Metadata.

(** * Vocabulary of the statements *)

(** The unsigned value of a byte string read most significant byte
    first. *)
Definition big_endian (bs : list byte) : Z :=
  fold_left (fun acc b => acc * 256 + byte_val b) bs 0.

(** The number a [mmdb_uint128_t] stands for, and its two 64-bit
    halves, as the format defines them. *)
Definition uint128_value (v : mmdb_uint128_t) : Z :=
  match v with
  | Uint128_bytes a => big_endian a
  | Uint128_scalar x => x
  end.

Definition high_half (v : mmdb_uint128_t) : Z :=
  match v with
  | Uint128_bytes a => big_endian (firstn 8 a)
  | Uint128_scalar x => x / two64
  end.

Definition low_half (v : mmdb_uint128_t) : Z :=
  match v with
  | Uint128_bytes a => big_endian (skipn 8 a)
  | Uint128_scalar x => x mod two64
  end.

(** What the engine stores: sixteen bytes, or a number below 2^128. *)
Definition uint128_wf (v : mmdb_uint128_t) : Prop :=
  match v with
  | Uint128_bytes a => List.length a = 16%nat
  | Uint128_scalar x => 0 <= x < 2 ^ 128
  end.

Definition fold_be (acc : Z) (bs : list byte) : Z :=
  fold_left (fun acc b => acc * 256 + byte_val b) bs acc.

Definition uint128_node (v : mmdb_uint128_t) : MMDB_entry_data_s :=
  mk_entry_data (U_uint128 v) 16 MMDB_DATA_TYPE_UINT128.

(** A small engine for concrete runs: every address is absent, with a
    netmask of 120 bits; addresses print as the number of their
    bytes. *)
Definition demo_inet_ntop (family : Z) (addr : list byte) : option string :=
  Some (string_of_Z (Z.of_nat (List.length addr))).
Definition demo_getaddrinfo (ipstr : list byte)
    : Z * option sockaddr_storage := (-2, None).
Definition demo_lookup (status : Z) (db : MMDB_s) (sa : sockaddr_storage)
    : MMDB_lookup_result_s * Z := (mk_lookup_result false 0 120, status).
Definition demo_entry_data_list (db : MMDB_s) (entry : Z) : Z * cursor :=
  (MMDB_SUCCESS, []).
Definition demo_strerror (status : Z) : string := string_of_Z status.
Definition demo_db : MMDB_s := mk_mmdb "GeoLite2-City.mmdb" 6.
Definition demo_ipv4 : py_arg :=
  Arg_object (Some (Attr_bytes [x01; x02; x03; x04])).

Definition demo_session : Reader_obj := mk_reader (Some demo_db) false.
Definition demo_sockaddr : sockaddr_storage :=
  mk_sockaddr 2 [x01; x02; x03; x04].
Definition demo_result : MMDB_lookup_result_s := mk_lookup_result false 0 120.

(** The recursive tree that the engine flattens in pre-order: a scalar
    node, a Map node with its (key node, value) pairs, an Array node
    with its elements. *)
Inductive tree : Type :=
| T_leaf (e : MMDB_entry_data_s)
| T_map (e : MMDB_entry_data_s) (pairs : list (MMDB_entry_data_s * tree))
| T_array (e : MMDB_entry_data_s) (elements : list tree).

Fixpoint flatten (t : tree) : list MMDB_entry_data_s :=
  match t with
  | T_leaf e => [e]
  | T_map e pairs =>
      e :: flat_map (fun kv => fst kv :: flatten (snd kv)) pairs
  | T_array e elements => e :: flat_map flatten elements
  end.

Definition flatten_pairs (pairs : list (MMDB_entry_data_s * tree))
    : list MMDB_entry_data_s :=
  flat_map (fun kv => fst kv :: flatten (snd kv)) pairs.

(** The key step of the Map loop on a key node. *)
Definition decode_key (k : MMDB_entry_data_s) : result pystr :=
  u <- utf8_string k ;; PyUnicode_FromStringAndSize u (data_size k).

Definition key_of (k : MMDB_entry_data_s) : pystr :=
  match decode_key k with Ok s => s | _ => [] end.

(** The value a tree stands for: a dictionary filled pair by pair in
    pre-order, a list of the element values, the scalar of a leaf. *)
Fixpoint value_of (t : tree) : PyObject :=
  match t with
  | T_leaf e => match from_scalar e with Ok v => v | _ => Py_None end
  | T_map e pairs =>
      PyDict (fold_left
                (fun d kv =>
                   PyDict_SetItem d (key_of (fst kv)) (value_of (snd kv)))
                pairs [])
  | T_array e elements => PyList (map (fun t' => Some (value_of t')) elements)
  end.

(** A well-formed tree: a container announces as many children as it
    has, every key node holds text (a UTF8String node with valid bytes
    does), every leaf is a scalar node that decodes. *)
Fixpoint wf_tree (t : tree) : bool :=
  match t with
  | T_leaf e =>
      negb (type e =? MMDB_DATA_TYPE_MAP)
      && negb (type e =? MMDB_DATA_TYPE_ARRAY)
      && is_ok (from_scalar e)
  | T_map e pairs =>
      (type e =? MMDB_DATA_TYPE_MAP)
      && Nat.eqb (Z.to_nat (data_size e)) (List.length pairs)
      && forallb (fun kv => is_ok (decode_key (fst kv)) && wf_tree (snd kv))
                 pairs
  | T_array e elements =>
      negb (type e =? MMDB_DATA_TYPE_MAP)
      && (type e =? MMDB_DATA_TYPE_ARRAY)
      && Nat.eqb (Z.to_nat (data_size e)) (List.length elements)
      && forallb wf_tree elements
  end.

Fixpoint height (t : tree) : nat :=
  match t with
  | T_leaf _ => 1
  | T_map _ pairs =>
      S (fold_right (fun kv h => Nat.max (height (snd kv)) h) O pairs)
  | T_array _ elements =>
      S (fold_right (fun t' h => Nat.max (height t') h) O elements)
  end.

(** The value a dictionary holds for a key. *)
Definition PyDict_GetItem (d : list (pystr * PyObject)) (key : pystr)
    : option PyObject :=
  option_map snd (find (fun kv => pystr_eqb (fst kv) key) d).

(** The keys of a sequence in the order of their first occurrence. *)
Fixpoint first_occurrences (keys : list pystr) : list pystr :=
  match keys with
  | [] => []
  | k :: keys' =>
      k :: filter (fun k' => negb (pystr_eqb k' k)) (first_occurrences keys')
  end.

(** The value bound to the last occurrence of a key in a sequence of
    pairs. *)
Definition last_binding (kvs : list (pystr * PyObject)) (key : pystr)
    : option PyObject :=
  PyDict_GetItem (rev kvs) key.

Definition decoded_pairs (pairs : list (MMDB_entry_data_s * tree))
    : list (pystr * PyObject) :=
  map (fun kv => (key_of (fst kv), value_of (snd kv))) pairs.

Definition set_pair (d : list (pystr * PyObject))
    (kv : MMDB_entry_data_s * tree) : list (pystr * PyObject) :=
  PyDict_SetItem d (key_of (fst kv)) (value_of (snd kv)).

(** A call returned by the decoder consumed the flattening of a
    well-formed tree and returns the value of that tree. *)
Definition returns_whole_trees
    (recur : cursor -> result (PyObject * cursor)) : Prop :=
  forall p v p',
    recur p = Ok (v, p') ->
    exists t rest,
      p = flatten t ++ rest
      /\ wf_tree t = true
      /\ v = value_of t
      /\ forall d, p' = last (flatten t) d :: rest.

(** [r2] gives every result of [r1] that is not a lack of fuel. *)
Definition extends (r1 r2 : cursor -> result (PyObject * cursor)) : Prop :=
  forall p, r1 p <> OutOfFuel -> r2 p = r1 p.

Definition has_key (keys : list pystr) (key : pystr) : bool :=
  existsb (fun k' => pystr_eqb k' key) keys.

(** The dictionary after setting the pairs of [kvs] in order. *)
Definition fill (d kvs : list (pystr * PyObject)) : list (pystr * PyObject) :=
  fold_left (fun d kv => PyDict_SetItem d (fst kv) (snd kv)) kvs d.

Definition demo_pairs : list (MMDB_entry_data_s * tree) :=
  [(string_node [x61], T_leaf (uint32_node 1));
   (string_node [x62], T_leaf (uint32_node 2));
   (string_node [x61], T_leaf (uint32_node 3))].

Definition demo_tree : tree :=
  T_array (array_node 2)
          [T_map (map_node 1) [(string_node [x61], T_leaf (uint32_node 1))];
           T_leaf (string_node [xc3; xa9])].

Definition forget_cursor (r : result (PyObject * cursor)) : result PyObject :=
  ' (v, _) <- r ;; Ok v.

(** A result that, when it is an exception, is one of the two that the
    code reading one node can set. *)
Definition decoder_exception {A : Type} (r : result A) : Prop :=
  match r with
  | Raise ex _ => ex = MaxMindDB_error \/ ex = PyExc_UnicodeDecodeError
  | _ => True
  end.

(** A result that, when it is an exception, is one of the three that the
    decoder with its allocation exits can set; [MemoryError] has no
    message and needs an allocation that gave no memory. *)
Definition alloc_exception {A : Type} (allocated : cursor -> bool)
    (r : result A) : Prop :=
  match r with
  | Raise ex msg =>
      ex = MaxMindDB_error \/ ex = PyExc_UnicodeDecodeError
      \/ (ex = PyExc_MemoryError /\ msg = EmptyString
          /\ exists q, allocated q = false)
  | _ => True
  end.

(** An engine that finds every address and lists a Map of one pair. *)
Definition demo_lookup_found (db : MMDB_s) (sa : sockaddr_storage)
    : MMDB_lookup_result_s * Z := (mk_lookup_result true 7 120, MMDB_SUCCESS).
Definition demo_list_found (db : MMDB_s) (entry : Z) : Z * cursor :=
  (MMDB_SUCCESS, [map_node 1; string_node [x61]; uint32_node 1]).
Definition demo_list_broken (status : Z) (l : cursor) (db : MMDB_s)
    (entry : Z) : Z * cursor := (status, l).
Definition demo_metadata_list (l : cursor) (db : MMDB_s) : cursor := l.
Definition demo_Metadata_call (d : list (pystr * PyObject))
    : result PyObject := Ok (PyDict d).

Definition demo_kwds : list (pystr * PyObject) :=
  map (fun name => (Metadata.pystr_of_string name,
                    PyUnicode (Metadata.pystr_of_string name)))
      Metadata.kwlist.

(** The type tags the switch of [from_entry_data_list] has a case
    for. *)
Definition handled_types : list Z :=
  [MMDB_DATA_TYPE_MAP; MMDB_DATA_TYPE_ARRAY; MMDB_DATA_TYPE_UTF8_STRING;
   MMDB_DATA_TYPE_BYTES; MMDB_DATA_TYPE_DOUBLE; MMDB_DATA_TYPE_FLOAT;
   MMDB_DATA_TYPE_UINT16; MMDB_DATA_TYPE_UINT32; MMDB_DATA_TYPE_BOOLEAN;
   MMDB_DATA_TYPE_UINT64; MMDB_DATA_TYPE_UINT128; MMDB_DATA_TYPE_INT32].

(** * Properties *)

(** ** 128-bit reconstruction *)

Lemma byte_val_range (b : byte) : 0 <= byte_val b < 256.
Proof.
  unfold byte_val. pose proof (Byte.to_N_bounded b). lia.
Qed.

Lemma lor_shifted_byte (x b : Z) :
  0 <= x -> 0 <= b < 256 -> Z.lor (x * 256) b = x * 256 + b.
Proof.
  intros Hx Hb.
  assert (Hland : Z.land (x * 256) b = 0).
  { apply Z.bits_inj'. intros n Hn.
    rewrite Z.land_spec, Z.bits_0.
    destruct (Z.lt_ge_cases n 8) as [Hlt | Hge].
    - change 256 with (2 ^ 8). rewrite Z.mul_pow2_bits_low by lia. reflexivity.
    - assert (Hbit : Z.testbit b n = false).
      { destruct (Z.eq_dec b 0) as [-> | Hnz]; [apply Z.bits_0 |].
        apply Z.bits_above_log2; [lia |].
        apply Z.log2_lt_pow2; [lia |].
        apply Z.lt_le_trans with (2 ^ 8); [simpl; lia |].
        apply Z.pow_le_mono_r; lia. }
      rewrite Hbit. apply andb_false_r. }
  rewrite <- (Z.lxor_lor _ _ Hland). symmetry.
  apply Z.add_nocarry_lxor. exact Hland.
Qed.

Lemma fold_be_bound (bs : list byte) : forall acc,
  0 <= acc ->
  0 <= fold_be acc bs < (acc + 1) * 256 ^ Z.of_nat (List.length bs).
Proof.
  induction bs as [| b bs IH]; intros acc Hacc; cbn [fold_be fold_left List.length].
  - rewrite Z.pow_0_r. lia.
  - pose proof (byte_val_range b) as Hb.
    specialize (IH (acc * 256 + byte_val b) ltac:(lia)).
    unfold fold_be in IH.
    rewrite Nat2Z.inj_succ, Z.pow_succ_r by lia.
    split; [lia |].
    eapply Z.lt_le_trans; [apply IH |].
    assert (0 < 256 ^ Z.of_nat (List.length bs)) by (apply Z.pow_pos_nonneg; lia).
    nia.
Qed.

Lemma fold_be_shift (bs : list byte) : forall acc,
  fold_be acc bs = acc * 256 ^ Z.of_nat (List.length bs) + big_endian bs.
Proof.
  unfold big_endian.
  induction bs as [| b bs IH]; intros acc; cbn [fold_be fold_left List.length].
  - rewrite Z.pow_0_r. lia.
  - unfold fold_be in IH.
    rewrite (IH (acc * 256 + byte_val b)), (IH (0 * 256 + byte_val b)).
    rewrite Nat2Z.inj_succ, Z.pow_succ_r by lia. ring.
Qed.

Lemma big_endian_app (a b : list byte) :
  big_endian (a ++ b)
  = big_endian a * 256 ^ Z.of_nat (List.length b) + big_endian b.
Proof.
  unfold big_endian at 1. rewrite fold_left_app.
  change (fold_left _ b ?x) with (fold_be x b).
  rewrite fold_be_shift. reflexivity.
Qed.

Lemma big_endian_bound (bs : list byte) :
  0 <= big_endian bs < 256 ^ Z.of_nat (List.length bs).
Proof.
  pose proof (fold_be_bound bs 0 ltac:(lia)) as H.
  unfold fold_be in H. unfold big_endian. lia.
Qed.

(** The shift-and-or loop computes the big-endian value while the
    accumulator has room, which it has for eight bytes. *)
Lemma shift_in_fold (bs : list byte) : forall acc k,
  0 <= acc < 256 ^ Z.of_nat k ->
  (k + List.length bs <= 8)%nat ->
  shift_in bs acc = fold_be acc bs.
Proof.
  induction bs as [| b bs IH]; intros acc k Hacc Hlen;
    cbn [shift_in fold_be fold_left List.length] in *.
  - reflexivity.
  - pose proof (byte_val_range b) as Hb.
    assert (Hk : 256 ^ Z.of_nat (S k) <= two64).
    { unfold two64. change 256 with (2 ^ 8).
      rewrite <- Z.pow_mul_r by lia. apply Z.pow_le_mono_r; lia. }
    rewrite Nat2Z.inj_succ, Z.pow_succ_r in Hk by lia.
    rewrite Z.shiftl_mul_pow2 by lia. change (2 ^ 8) with 256.
    rewrite Z.mod_small by lia.
    rewrite lor_shifted_byte by lia.
    apply (IH _ (S k)); [| lia].
    rewrite Nat2Z.inj_succ, Z.pow_succ_r by lia. lia.
Qed.

Lemma shift_in_big_endian (bs : list byte) :
  (List.length bs <= 8)%nat -> shift_in bs 0 = big_endian bs.
Proof.
  intros H. rewrite (shift_in_fold bs 0 0%nat); [reflexivity | simpl; lia | lia].
Qed.

(** Hexadecimal rendering and parsing undo each other. *)
Lemma hex_value_digit (d : Z) :
  0 <= d < 16 -> hex_value (nth (Z.to_nat d) hex_digits "0"%char) = Some d.
Proof.
  intros H.
  assert (Hc : d = 0 \/ d = 1 \/ d = 2 \/ d = 3 \/ d = 4 \/ d = 5 \/ d = 6
               \/ d = 7 \/ d = 8 \/ d = 9 \/ d = 10 \/ d = 11 \/ d = 12
               \/ d = 13 \/ d = 14 \/ d = 15) by lia.
  repeat (destruct Hc as [-> | Hc]; [reflexivity |]). subst d. reflexivity.
Qed.

Lemma of_hex_app (s1 s2 : list ascii) : forall acc,
  of_hex (s1 ++ s2) acc
  = match of_hex s1 acc with Some a => of_hex s2 a | None => None end.
Proof.
  induction s1 as [| c s1 IH]; intros acc; cbn [of_hex app].
  - reflexivity.
  - destruct (hex_value c); [apply IH | reflexivity].
Qed.

Lemma of_hex_to_hex (w : nat) : forall v acc,
  0 <= v ->
  of_hex (to_hex w v) acc
  = Some (acc * 16 ^ Z.of_nat w + v mod 16 ^ Z.of_nat w).
Proof.
  induction w as [| w IH]; intros v acc Hv.
  - cbn [to_hex of_hex]. rewrite Z.pow_0_r, Z.mod_1_r. f_equal. lia.
  - cbn [to_hex]. rewrite of_hex_app, IH by (apply Z.div_pos; lia).
    cbn [of_hex]. rewrite hex_value_digit by (apply Z.mod_pos_bound; lia).
    f_equal. rewrite Nat2Z.inj_succ, Z.pow_succ_r by lia.
    assert (Hp : 0 < 16 ^ Z.of_nat w) by (apply Z.pow_pos_nonneg; lia).
    rewrite (Z.rem_mul_r v 16 (16 ^ Z.of_nat w)) by lia. ring.
Qed.

Lemma to_hex_nonempty (w : nat) (v : Z) (s : list ascii) :
  to_hex (S w) v ++ s <> [].
Proof.
  cbn [to_hex]. destruct (to_hex w (v / 16)); discriminate.
Qed.

Lemma PyLong_FromString_16_halves (high low : Z) :
  0 <= high < two64 -> 0 <= low < two64 ->
  PyLong_FromString_16 (to_hex 16 high ++ to_hex 16 low)
  = Ok (PyLong (high * two64 + low)).
Proof.
  intros Hh Hl. unfold PyLong_FromString_16.
  pose proof (to_hex_nonempty 15 high (to_hex 16 low)) as Hne.
  destruct (to_hex 16 high ++ to_hex 16 low) eqn:E; [congruence |].
  rewrite <- E. rewrite of_hex_app.
  rewrite (of_hex_to_hex 16 high 0) by lia.
  rewrite (of_hex_to_hex 16 low) by lia.
  change (16 ^ Z.of_nat 16) with two64.
  rewrite !Z.mod_small by lia. do 2 f_equal.
Qed.

Lemma halves_in_range (v : mmdb_uint128_t) :
  uint128_wf v ->
  0 <= high_half v < two64 /\ 0 <= low_half v < two64.
Proof.
  destruct v as [a | x]; cbn [uint128_wf high_half low_half]; intros H.
  - pose proof (big_endian_bound (firstn 8 a)) as H1.
    pose proof (big_endian_bound (skipn 8 a)) as H2.
    rewrite length_firstn, H in H1. rewrite length_skipn, H in H2.
    exact (conj H1 H2).
  - assert (0 < two64) by (unfold two64; lia).
    split; [| apply Z.mod_pos_bound; lia].
    split; [apply Z.div_pos; lia |].
    apply Z.div_lt_upper_bound; [lia |].
    change (two64 * two64) with (2 ^ 128). lia.
Qed.

Lemma code_halves (v : mmdb_uint128_t) :
  uint128_wf v ->
  uint128_high v = high_half v /\ uint128_low v = low_half v.
Proof.
  destruct v as [a | x];
    cbn [uint128_wf uint128_high uint128_low high_half low_half]; intros H.
  - split.
    + apply shift_in_big_endian. rewrite length_firstn. lia.
    + rewrite firstn_all2 by (rewrite length_skipn; lia).
      apply shift_in_big_endian. rewrite length_skipn. lia.
  - split; [| reflexivity].
    rewrite Z.shiftr_div_pow2 by lia. apply Z.mod_small.
    pose proof (halves_in_range (Uint128_scalar x) H) as [Hh _].
    exact Hh.
Qed.

Lemma halves_compose (v : mmdb_uint128_t) :
  uint128_wf v ->
  high_half v * two64 + low_half v = uint128_value v.
Proof.
  destruct v as [a | x];
    cbn [uint128_wf uint128_value high_half low_half]; intros H.
  - rewrite <- (firstn_skipn 8 a) at 3. rewrite big_endian_app.
    rewrite length_skipn, H. reflexivity.
  - assert (0 < two64) by (unfold two64; lia).
    rewrite (Z.div_mod x two64) at 3 by lia. ring.
Qed.

(** C3.  Decoding a UInt128 node yields [high * 2^64 + low], the number
    the engine's 128-bit value stands for, in both build configurations:
    for the byte array the high half is the big-endian value of the
    first eight bytes and the low half that of the last eight; for the
    scalar they are the quotient and the remainder by 2^64.  This is
    what [decode] returns for the node, with the cursor left on it, the
    same with the allocation exits when [malloc] gives memory, and what
    [from_uint128] returns on the payload.  Fifteen zero bytes and a
    one decode to 1, sixteen [0xFF] bytes to 2^128 - 1. *)
Theorem from_uint128_reconstructs :
  (forall (e : MMDB_entry_data_s) (v : mmdb_uint128_t),
      payload e = U_uint128 v ->
      uint128_wf v ->
      from_uint128 e = Ok (PyLong (high_half v * 2 ^ 64 + low_half v))
      /\ high_half v * 2 ^ 64 + low_half v = uint128_value v)
  /\ (forall (e : MMDB_entry_data_s) (v : mmdb_uint128_t) (rest : cursor),
         type e = MMDB_DATA_TYPE_UINT128 ->
         payload e = U_uint128 v ->
         uint128_wf v ->
         decode (e :: rest)
         = Ok (PyLong (high_half v * 2 ^ 64 + low_half v))
         /\ (forall fuel,
                from_entry_data_list (S fuel) (e :: rest)
                = Ok (PyLong (high_half v * 2 ^ 64 + low_half v), e :: rest))
         /\ (forall allocated,
                allocated (e :: rest) = true ->
                Alloc.decode allocated (e :: rest)
                = Ok (PyLong (high_half v * 2 ^ 64 + low_half v))))
  /\ decode [uint128_node (Uint128_bytes (repeat x00 15 ++ [x01]))]
     = Ok (PyLong 1)
  /\ decode [uint128_node (Uint128_bytes (repeat xff 16))]
     = Ok (PyLong (2 ^ 128 - 1))
  /\ from_uint128 (uint128_node (Uint128_bytes (repeat x00 15 ++ [x01])))
     = Ok (PyLong 1)
  /\ from_uint128 (uint128_node (Uint128_bytes (repeat xff 16)))
     = Ok (PyLong (2 ^ 128 - 1)).
Proof.
  assert (Hhelper : forall e v, payload e = U_uint128 v -> uint128_wf v ->
            from_uint128 e
            = Ok (PyLong (high_half v * 2 ^ 64 + low_half v))).
  { intros e v He Hwf. unfold from_uint128, uint128. rewrite He. cbn [bind].
    destruct (code_halves v Hwf) as [-> ->].
    destruct (halves_in_range v Hwf) as [Hh Hl].
    apply PyLong_FromString_16_halves; assumption. }
  split; [| split; [| repeat split; vm_compute; reflexivity]].
  - intros e v He Hwf. split; [exact (Hhelper e v He Hwf) |].
    apply (halves_compose v Hwf).
  - intros e v rest Hty He Hwf.
    assert (Hscalar : from_scalar e
                      = Ok (PyLong (high_half v * 2 ^ 64 + low_half v))).
    { unfold from_scalar. rewrite Hty. cbn [Z.eqb Pos.eqb].
      exact (Hhelper e v He Hwf). }
    assert (Hrun : forall fuel,
               from_entry_data_list (S fuel) (e :: rest)
               = Ok (PyLong (high_half v * 2 ^ 64 + low_half v), e :: rest)).
    { intros fuel. cbn [from_entry_data_list]. rewrite Hty.
      change (MMDB_DATA_TYPE_UINT128 =? MMDB_DATA_TYPE_MAP) with false.
      change (MMDB_DATA_TYPE_UINT128 =? MMDB_DATA_TYPE_ARRAY) with false.
      cbv iota. rewrite Hscalar. reflexivity. }
    split; [unfold decode; rewrite Hrun; reflexivity |].
    split; [exact Hrun |].
    intros allocated Halloc. unfold Alloc.decode.
    cbn [Alloc.from_entry_data_list]. rewrite Hty.
    change (MMDB_DATA_TYPE_UINT128 =? MMDB_DATA_TYPE_MAP) with false.
    change (MMDB_DATA_TYPE_UINT128 =? MMDB_DATA_TYPE_ARRAY) with false.
    change (MMDB_DATA_TYPE_UINT128 =? MMDB_DATA_TYPE_UINT128) with true.
    cbv iota. unfold Alloc.from_uint128, uint128.
    cbn [entry_data bind]. rewrite He, Halloc. cbn [bind negb].
    destruct (code_halves v Hwf) as [-> ->].
    destruct (halves_in_range v Hwf) as [Hh Hl].
    rewrite PyLong_FromString_16_halves by assumption. reflexivity.
Qed.

Lemma from_uint128_reconstructs_witness :
  decode [uint128_node (Uint128_scalar (2 ^ 64 + 5)); uint32_node 7]
  = Ok (PyLong (1 * 2 ^ 64 + 5)).
Proof.
  apply (proj1 (proj2 from_uint128_reconstructs)
               (uint128_node (Uint128_scalar (2 ^ 64 + 5)))
               (Uint128_scalar (2 ^ 64 + 5)) [uint32_node 7]
               eq_refl eq_refl).
  cbn [uint128_wf]. lia.
Defined.

(** ** The lookup bridge and the session *)

Section BridgeProperties.

Variables AF_INET AF_INET6 : Z.
Variable getaddrinfo : list byte -> Z * option sockaddr_storage.
Variable inet_ntop : Z -> list byte -> option string.
Variable MMDB_lookup_sockaddr :
  MMDB_s -> sockaddr_storage -> MMDB_lookup_result_s * Z.
Variable MMDB_get_entry_data_list : MMDB_s -> Z -> Z * cursor.
Variable MMDB_get_metadata_as_entry_data_list : MMDB_s -> cursor.
Variable MMDB_strerror : Z -> string.
Variable Metadata_call : list (pystr * PyObject) -> result PyObject.

Local Abbreviation ip_converter := (ip_converter AF_INET AF_INET6 getaddrinfo).
Local Abbreviation parse_args := (parse_args AF_INET AF_INET6 getaddrinfo).
Local Abbreviation get_record :=
  (get_record AF_INET AF_INET6 getaddrinfo inet_ntop MMDB_lookup_sockaddr
              MMDB_get_entry_data_list MMDB_strerror).
Local Abbreviation Reader_get :=
  (Reader_get AF_INET AF_INET6 getaddrinfo inet_ntop MMDB_lookup_sockaddr
              MMDB_get_entry_data_list MMDB_strerror).
Local Abbreviation Reader_get_with_prefix_len :=
  (Reader_get_with_prefix_len AF_INET AF_INET6 getaddrinfo inet_ntop
     MMDB_lookup_sockaddr MMDB_get_entry_data_list MMDB_strerror).
Local Abbreviation Reader_metadata :=
  (Reader_metadata MMDB_get_metadata_as_entry_data_list Metadata_call).
Local Abbreviation corrected_prefix_len := (corrected_prefix_len AF_INET).

Lemma corrected_prefix_len_max (family : Z) (db : MMDB_s) (raw : N) :
  (family = AF_INET -> ip_version db = 6 ->
   corrected_prefix_len family db raw = Z.max (Z.of_N raw - 96) 0)
  /\ (family <> AF_INET \/ ip_version db <> 6 ->
      corrected_prefix_len family db raw = Z.of_N raw).
Proof.
  unfold corrected_prefix_len. split.
  - intros -> ->. rewrite !Z.eqb_refl. cbn [andb].
    destruct (Z.of_N raw >=? 96) eqn:E; lia.
  - intros [H | H].
    + apply Z.eqb_neq in H. rewrite H. reflexivity.
    + apply Z.eqb_neq in H. rewrite H, andb_false_r. reflexivity.
Qed.

Lemma corrected_prefix_len_nonneg (family : Z) (db : MMDB_s) (raw : N) :
  0 <= corrected_prefix_len family db raw.
Proof.
  unfold corrected_prefix_len.
  destruct ((family =? AF_INET) && (ip_version db =? 6)); [| lia].
  destruct (Z.of_N raw >=? 96) eqn:E; lia.
Qed.

(** A lookup that reaches the engine and gets [MMDB_SUCCESS] back. *)
Lemma get_record_after_lookup (self : Reader_obj) (args : list py_arg)
    (db : MMDB_s) (sa : sockaddr_storage) (res : MMDB_lookup_result_s) :
  mmdb self = Some db ->
  parse_args args = Ok sa ->
  ss_family sa <> 0 ->
  MMDB_lookup_sockaddr db sa = (res, MMDB_SUCCESS) ->
  get_record self args
  = let prefix_len := corrected_prefix_len (ss_family sa) db (netmask res) in
    if negb (found_entry res) then Ok (Py_None, prefix_len)
    else
      let '(status, entry_data_list) :=
        MMDB_get_entry_data_list db (entry res) in
      if negb (status =? MMDB_SUCCESS) then
        ipstr <- format_sockaddr inet_ntop sa ;;
        Raise MaxMindDB_error
              ("Error while looking up data for " ++ ipstr ++ ". "
               ++ MMDB_strerror status)%string
      else
        record <- decode entry_data_list ;; Ok (record, prefix_len).
Proof.
  intros Hdb Hsa Hfam Hres. unfold get_record.
  rewrite Hdb, Hsa. cbn [bind].
  apply Z.eqb_neq in Hfam. rewrite Hfam, Hres. reflexivity.
Qed.

(** C4.  When a lookup returns, the prefix length it returns is the
    engine's netmask reduced by 96 and floored at 0 if the address is
    IPv4 and the database declares IP version 6, and the engine's
    netmask itself for every other family and IP version. *)
Theorem prefix_len_v4_in_v6 (self : Reader_obj) (args : list py_arg)
    (db : MMDB_s) (sa : sockaddr_storage) (res : MMDB_lookup_result_s)
    (v : PyObject) :
  mmdb self = Some db ->
  parse_args args = Ok sa ->
  MMDB_lookup_sockaddr db sa = (res, MMDB_SUCCESS) ->
  Reader_get_with_prefix_len self args = Ok v ->
  exists (record : PyObject) (prefix_len : Z),
    v = PyTuple [record; PyLong prefix_len]
    /\ get_record self args = Ok (record, prefix_len)
    /\ (ss_family sa = AF_INET -> ip_version db = 6 ->
        prefix_len = Z.max (Z.of_N (netmask res) - 96) 0)
    /\ (ss_family sa <> AF_INET \/ ip_version db <> 6 ->
        prefix_len = Z.of_N (netmask res)).
Proof.
  intros Hdb Hsa Hres Hv.
  unfold Reader_get_with_prefix_len in Hv.
  destruct (Z.eq_dec (ss_family sa) 0) as [Hz | Hnz].
  { unfold get_record in Hv. rewrite Hdb, Hsa in Hv.
    cbn [bind] in Hv. rewrite Hz in Hv. discriminate. }
  rewrite (get_record_after_lookup self args db sa res Hdb Hsa Hnz Hres)
    in Hv |- *.
  cbv zeta in Hv |- *.
  pose proof (corrected_prefix_len_max (ss_family sa) db (netmask res))
    as [Hv4 Hother].
  set (p := corrected_prefix_len (ss_family sa) db (netmask res)) in *.
  destruct (negb (found_entry res)).
  - cbn [bind] in Hv. destruct (p =? -1); [discriminate |].
    injection Hv as <-. exists Py_None, p. auto.
  - destruct (MMDB_get_entry_data_list db (entry res)) as [status l].
    destruct (negb (status =? MMDB_SUCCESS)).
    + destruct (format_sockaddr inet_ntop sa); discriminate.
    + destruct (decode l) as [record | | |]; try discriminate.
      cbn [bind] in Hv. destruct (p =? -1); [discriminate |].
      injection Hv as <-. exists record, p. auto.
Qed.

(** C5.  A lookup of a valid address on an open session that the
    engine answers with "no entry" raises nothing: [get] returns
    [None] and [get_with_prefix_len] returns [None] with the corrected
    prefix length, which is not negative. *)
Theorem absent_is_not_an_error (self : Reader_obj) (args : list py_arg)
    (db : MMDB_s) (sa : sockaddr_storage) (res : MMDB_lookup_result_s) :
  mmdb self = Some db ->
  parse_args args = Ok sa ->
  ss_family sa <> 0 ->
  MMDB_lookup_sockaddr db sa = (res, MMDB_SUCCESS) ->
  found_entry res = false ->
  let prefix_len := corrected_prefix_len (ss_family sa) db (netmask res) in
  0 <= prefix_len
  /\ get_record self args = Ok (Py_None, prefix_len)
  /\ Reader_get self args = Ok Py_None
  /\ Reader_get_with_prefix_len self args
     = Ok (PyTuple [Py_None; PyLong prefix_len]).
Proof.
  intros Hdb Hsa Hfam Hres Hfound prefix_len.
  pose proof (corrected_prefix_len_nonneg (ss_family sa) db (netmask res))
    as Hp. fold prefix_len in Hp.
  assert (Hrec : get_record self args = Ok (Py_None, prefix_len)).
  { rewrite (get_record_after_lookup self args db sa res Hdb Hsa Hfam Hres).
    rewrite Hfound. reflexivity. }
  assert (Hm : (prefix_len =? -1) = false) by (apply Z.eqb_neq; lia).
  unfold Reader_get, Reader_get_with_prefix_len.
  rewrite Hrec. cbn [bind]. rewrite Hm. auto.
Qed.

(** C6.  When the engine's address lookup reports a status other than
    success, the lookup raises [ValueError] (the caller's error) for
    "IPv6 address looked up in IPv4-only database" and
    [InvalidDatabaseError] for every other status; the message holds
    the formatted address and the engine's diagnostic string. *)
Theorem lookup_error_classification (self : Reader_obj)
    (args : list py_arg) (db : MMDB_s) (sa : sockaddr_storage)
    (res : MMDB_lookup_result_s) (mmdb_error : Z) (ipstr : string) :
  mmdb self = Some db ->
  parse_args args = Ok sa ->
  ss_family sa <> 0 ->
  MMDB_lookup_sockaddr db sa = (res, mmdb_error) ->
  mmdb_error <> MMDB_SUCCESS ->
  inet_ntop (ss_family sa) (s_addr sa) = Some ipstr ->
  let msg := ("Error looking up " ++ ipstr ++ ". "
              ++ MMDB_strerror mmdb_error)%string in
  (mmdb_error = MMDB_IPV6_LOOKUP_IN_IPV4_DATABASE_ERROR ->
   get_record self args = Raise PyExc_ValueError msg)
  /\ (mmdb_error <> MMDB_IPV6_LOOKUP_IN_IPV4_DATABASE_ERROR ->
      get_record self args = Raise MaxMindDB_error msg).
Proof.
  intros Hdb Hsa Hfam Hres Herr Hfmt msg.
  assert (Hrec : get_record self args
                 = Raise (if mmdb_error
                             =? MMDB_IPV6_LOOKUP_IN_IPV4_DATABASE_ERROR
                          then PyExc_ValueError else MaxMindDB_error) msg).
  { unfold get_record. rewrite Hdb, Hsa. cbn [bind].
    apply Z.eqb_neq in Hfam, Herr. rewrite Hfam, Hres, Herr. cbn [negb].
    unfold format_sockaddr. rewrite Hfmt. reflexivity. }
  rewrite Hrec. split; intros H.
  - rewrite H, Z.eqb_refl. reflexivity.
  - apply Z.eqb_neq in H. rewrite H. reflexivity.
Qed.

(** C7.  [close ()] returns [None] whether the session is open or not.
    On an open session it releases the handle once ([MMDB_close], then
    [free]); any number of further calls release nothing more and
    leave the session as it is.  On the closed session [get] and
    [get_with_prefix_len] raise [ValueError] and [metadata] raises
    [IOError], each with the closed-database message, for every
    argument. *)
Theorem close_idempotent_then_closed_reader (db : MMDB_s) (c : bool) :
  let closed_session := mk_reader None true in
  Reader_close (mk_reader (Some db) c)
  = (Py_None, closed_session, [Call_MMDB_close db; Call_free db])
  /\ (forall c' : bool,
         Reader_close (mk_reader None c') = (Py_None, closed_session, []))
  /\ (forall n : nat,
         close_times (S n) (mk_reader (Some db) c)
         = (closed_session, [Call_MMDB_close db; Call_free db]))
  /\ (forall args : list py_arg,
         get_record closed_session args = Raise PyExc_ValueError closed_msg
         /\ Reader_get closed_session args
            = Raise PyExc_ValueError closed_msg
         /\ Reader_get_with_prefix_len closed_session args
            = Raise PyExc_ValueError closed_msg)
  /\ Reader_metadata closed_session = Raise PyExc_IOError closed_msg.
Proof.
  intros closed_session.
  assert (Hclosed : forall n, close_times n closed_session
                              = (closed_session, [])).
  { induction n as [| n IH]; [reflexivity |].
    cbn [close_times Reader_close mmdb closed_session].
    fold closed_session. rewrite IH. reflexivity. }
  repeat split.
  - intros n. cbn [close_times Reader_close mmdb].
    fold closed_session. rewrite Hclosed. reflexivity.
Qed.

(** C9.  A [packed] value of 4 bytes gives an [AF_INET] address with
    those bytes, one of 16 bytes an [AF_INET6] address, and one of any
    other length makes the conversion raise [ValueError]. *)
Theorem packed_length_4_or_16 (packed : list byte) :
  let obj := Arg_object (Some (Attr_bytes packed)) in
  (List.length packed = 4%nat ->
   ip_converter obj = Ok (mk_sockaddr AF_INET packed))
  /\ (List.length packed = 16%nat ->
      ip_converter obj = Ok (mk_sockaddr AF_INET6 packed))
  /\ (List.length packed <> 4%nat -> List.length packed <> 16%nat ->
      ip_converter obj
      = Raise PyExc_ValueError
          "argument 1 returned an unexpected packed length for address").
Proof.
  intros obj. unfold obj, ip_converter.
  repeat split.
  - intros ->. reflexivity.
  - intros ->. reflexivity.
  - intros H4 H16.
    destruct (Z.of_nat (List.length packed) =? 16) eqn:E16;
      [apply Z.eqb_eq in E16; lia |].
    destruct (Z.of_nat (List.length packed) =? 4) eqn:E4;
      [apply Z.eqb_eq in E4; lia |].
    reflexivity.
Qed.

End BridgeProperties.

Lemma prefix_len_v4_in_v6_witness :
  exists record : PyObject,
    get_record 2 10 demo_getaddrinfo demo_inet_ntop (demo_lookup 0)
               demo_entry_data_list demo_strerror demo_session [demo_ipv4]
    = Ok (record, 24).
Proof.
  destruct (prefix_len_v4_in_v6 2 10 demo_getaddrinfo demo_inet_ntop
              (demo_lookup 0) demo_entry_data_list demo_strerror
              demo_session [demo_ipv4] demo_db demo_sockaddr demo_result
              (PyTuple [Py_None; PyLong 24])
              eq_refl eq_refl eq_refl eq_refl)
    as (record & prefix_len & _ & Hrec & Hv4 & _).
  exists record. rewrite Hrec, (Hv4 eq_refl eq_refl). reflexivity.
Defined.

Lemma absent_is_not_an_error_witness :
  0 <= 24
  /\ get_record 2 10 demo_getaddrinfo demo_inet_ntop (demo_lookup 0)
                demo_entry_data_list demo_strerror demo_session [demo_ipv4]
     = Ok (Py_None, 24)
  /\ Reader_get 2 10 demo_getaddrinfo demo_inet_ntop (demo_lookup 0)
                demo_entry_data_list demo_strerror demo_session [demo_ipv4]
     = Ok Py_None
  /\ Reader_get_with_prefix_len 2 10 demo_getaddrinfo demo_inet_ntop
       (demo_lookup 0) demo_entry_data_list demo_strerror demo_session
       [demo_ipv4]
     = Ok (PyTuple [Py_None; PyLong 24]).
Proof.
  apply (absent_is_not_an_error 2 10 demo_getaddrinfo demo_inet_ntop
           (demo_lookup 0) demo_entry_data_list demo_strerror
           demo_session [demo_ipv4] demo_db demo_sockaddr demo_result);
    [reflexivity | reflexivity | discriminate | reflexivity | reflexivity].
Defined.

Lemma lookup_error_classification_witness :
  get_record 2 10 demo_getaddrinfo demo_inet_ntop (demo_lookup 11)
             demo_entry_data_list demo_strerror demo_session [demo_ipv4]
  = Raise PyExc_ValueError "Error looking up 4. 11"
  /\ get_record 2 10 demo_getaddrinfo demo_inet_ntop (demo_lookup 3)
                demo_entry_data_list demo_strerror demo_session [demo_ipv4]
     = Raise MaxMindDB_error "Error looking up 4. 3".
Proof.
  split.
  - apply (lookup_error_classification 2 10 demo_getaddrinfo demo_inet_ntop
             (demo_lookup 11) demo_entry_data_list demo_strerror
             demo_session [demo_ipv4] demo_db demo_sockaddr demo_result
             11 "4");
      [reflexivity | reflexivity | discriminate | reflexivity | discriminate
      | reflexivity | reflexivity].
  - apply (lookup_error_classification 2 10 demo_getaddrinfo demo_inet_ntop
             (demo_lookup 3) demo_entry_data_list demo_strerror
             demo_session [demo_ipv4] demo_db demo_sockaddr demo_result
             3 "4");
      [reflexivity | reflexivity | discriminate | reflexivity | discriminate
      | reflexivity | discriminate].
Defined.

Lemma packed_length_4_or_16_witness :
  ip_converter 2 10 demo_getaddrinfo
    (Arg_object (Some (Attr_bytes [x01; x02; x03; x04])))
  = Ok (mk_sockaddr 2 [x01; x02; x03; x04])
  /\ ip_converter 2 10 demo_getaddrinfo
       (Arg_object (Some (Attr_bytes [x01; x02; x03])))
     = Raise PyExc_ValueError
         "argument 1 returned an unexpected packed length for address".
Proof.
  split.
  - apply (packed_length_4_or_16 2 10 demo_getaddrinfo
             [x01; x02; x03; x04]). reflexivity.
  - apply (packed_length_4_or_16 2 10 demo_getaddrinfo [x01; x02; x03]);
      discriminate.
Defined.

(** ** The decoder at the end of the list and at Map keys *)

(** Where the decoder checks: the top-level call, every array element
    and every Map value go through the NULL test of
    [from_entry_data_list]. *)
Lemma from_entry_data_list_null (fuel : nat) :
  from_entry_data_list (S fuel) [] = Raise MaxMindDB_error corrupt_msg.
Proof. reflexivity. Qed.

Lemma from_array_loop_at_end (recur : cursor -> result (PyObject * cursor))
    (n : nat) (i : Z) (e : MMDB_entry_data_s)
    (py_obj : list (option PyObject)) :
  recur [] = Raise MaxMindDB_error corrupt_msg ->
  from_array_loop recur (S n) i [e] py_obj
  = Raise MaxMindDB_error corrupt_msg.
Proof. intros H. cbn [from_array_loop next bind]. rewrite H. reflexivity. Qed.

Lemma from_map_loop_key_at_end (recur : cursor -> result (PyObject * cursor))
    (n : nat) (c : MMDB_entry_data_s) (d : list (pystr * PyObject)) :
  from_map_loop recur (S n) [c] d = Undefined NullDeref.
Proof. reflexivity. Qed.

Lemma from_map_loop_value_at_end
    (recur : cursor -> result (PyObject * cursor)) (n : nat)
    (c k : MMDB_entry_data_s) (d : list (pystr * PyObject)) :
  is_ok (decode_key k) = true ->
  recur [] = Raise MaxMindDB_error corrupt_msg ->
  from_map_loop recur (S n) [c; k] d = Raise MaxMindDB_error corrupt_msg.
Proof.
  intros Hk H. cbn [from_map_loop next entry_data bind].
  unfold decode_key in Hk.
  destruct (utf8_string k) as [u | | |]; cbn [bind] in *; try discriminate.
  destruct (PyUnicode_FromStringAndSize u (data_size k)); cbn [bind] in *;
    try discriminate.
  rewrite H. reflexivity.
Qed.

(** C1.  A Map node that announces a pair and is the last node of the
    list: the loop of [from_map] moves the cursor to NULL and reads the
    key through it.  The same after a first complete pair. *)
Theorem map_key_at_list_end_dereferences_null :
  decode [map_node 1] = Undefined NullDeref
  /\ decode [map_node 2; string_node [x61]; uint32_node 5]
     = Undefined NullDeref.
Proof. split; reflexivity. Qed.

(** A Map whose only key is a Bytes node holding the letter a. *)
Lemma bytes_key_is_accepted :
  type (bytes_node [x61]) <> MMDB_DATA_TYPE_UTF8_STRING
  /\ decode [map_node 1; bytes_node [x61]; uint32_node 7]
     = Ok (PyDict [([97], PyLong 7)])
  /\ ~ (exists msg : string,
           decode [map_node 1; bytes_node [x61]; uint32_node 7]
           = Raise MaxMindDB_error msg).
Proof.
  split; [discriminate |]. split; [reflexivity |].
  intros [msg H]. discriminate H.
Qed.

(** C2, as the code has it.  At every iteration of the Map loop the key
    node is read as [data_size] bytes of UTF-8 text from its buffer and
    its type tag is not looked at: bytes that are valid UTF-8 give the
    key and the loop goes on to the value, bytes that are not make the
    Map fail with [UnicodeDecodeError]. *)
Theorem map_key_read_as_text
    (recur : cursor -> result (PyObject * cursor)) (n : nat)
    (c k : MMDB_entry_data_s) (rest : cursor)
    (d : list (pystr * PyObject)) (buf : list byte) :
  payload k = U_buffer buf ->
  data_size k <= Z.of_nat (List.length buf) ->
  let text :=
    utf8_decode (map byte_val (firstn (Z.to_nat (data_size k)) buf)) in
  (forall key : pystr,
      text = Some key ->
      from_map_loop recur (S n) (c :: k :: rest) d
      = (' (value, p3) <- recur rest ;;
         from_map_loop recur n p3 (PyDict_SetItem d key value)))
  /\ (text = None ->
      from_map_loop recur (S n) (c :: k :: rest) d
      = Raise PyExc_UnicodeDecodeError "invalid utf-8").
Proof.
  intros Hbuf Hsize text.
  assert (Hread : read_buffer buf (data_size k)
                  = Ok (firstn (Z.to_nat (data_size k)) buf)).
  { unfold read_buffer. apply Z.leb_le in Hsize. rewrite Hsize. reflexivity. }
  assert (Hstep : from_map_loop recur (S n) (c :: k :: rest) d
                  = (key <- PyUnicode_FromStringAndSize buf (data_size k) ;;
                     ' (value, p3) <- recur rest ;;
                     from_map_loop recur n p3 (PyDict_SetItem d key value))).
  { cbn [from_map_loop next entry_data bind]. unfold utf8_string.
    rewrite Hbuf. reflexivity. }
  rewrite Hstep. unfold PyUnicode_FromStringAndSize. rewrite Hread.
  cbn [bind]. fold text. split.
  - intros key ->. reflexivity.
  - intros ->. reflexivity.
Qed.

Lemma map_key_read_as_text_witness :
  from_map_loop (from_entry_data_list 1) 1
                [map_node 1; bytes_node [x61]; uint32_node 7] []
  = Ok (PyDict [([97], PyLong 7)], [uint32_node 7])
  /\ from_map_loop (from_entry_data_list 1) 1
                   [map_node 1; string_node [xff]; uint32_node 7] []
     = Raise PyExc_UnicodeDecodeError "invalid utf-8".
Proof.
  split.
  - rewrite (proj1 (map_key_read_as_text (from_entry_data_list 1) 0
                      (map_node 1) (bytes_node [x61]) [uint32_node 7] []
                      [x61] eq_refl ltac:(simpl; lia)) [97] eq_refl).
    reflexivity.
  - apply (map_key_read_as_text (from_entry_data_list 1) 0
             (map_node 1) (string_node [xff]) [uint32_node 7] []
             [xff] eq_refl);
      [simpl; lia | reflexivity].
Defined.

(** ** The tree behind a node list *)

(** Induction on trees, with the hypothesis on every child. *)
Section TreeInduction.

Variable P : tree -> Prop.
Hypothesis P_leaf : forall e, P (T_leaf e).
Hypothesis P_map :
  forall e pairs, Forall (fun kv => P (snd kv)) pairs -> P (T_map e pairs).
Hypothesis P_array :
  forall e elements, Forall P elements -> P (T_array e elements).

Fixpoint tree_induction (t : tree) : P t :=
  match t with
  | T_leaf e => P_leaf e
  | T_map e pairs =>
      P_map e pairs
            ((fix children (l : list (MMDB_entry_data_s * tree))
                : Forall (fun kv => P (snd kv)) l :=
                match l with
                | [] => Forall_nil _
                | kv :: l' =>
                    Forall_cons kv (tree_induction (snd kv)) (children l')
                end) pairs)
  | T_array e elements =>
      P_array e elements
              ((fix children (l : list tree) : Forall P l :=
                  match l with
                  | [] => Forall_nil _
                  | t' :: l' => Forall_cons t' (tree_induction t') (children l')
                  end) elements)
  end.

End TreeInduction.

Lemma last_cons (l : list MMDB_entry_data_s) : forall x d,
  last (x :: l) d = last l x.
Proof.
  induction l as [| y l IH]; intros x d; [reflexivity |].
  change (last (x :: y :: l) d) with (last (y :: l) d).
  rewrite (IH y d), (IH y x). reflexivity.
Qed.

Lemma last_app_last (a b : list MMDB_entry_data_s) : forall d,
  last (a ++ b) d = last b (last a d).
Proof.
  induction a as [| x a IH]; intros d; [reflexivity |].
  rewrite <- app_comm_cons, !last_cons. apply IH.
Qed.

Lemma flatten_root (t : tree) :
  exists e l, flatten t = e :: l.
Proof. destruct t; cbn [flatten]; eauto. Qed.

Lemma last_flatten (t : tree) (d d' : MMDB_entry_data_s) :
  last (flatten t) d = last (flatten t) d'.
Proof.
  destruct (flatten_root t) as (e & l & ->). rewrite !last_cons. reflexivity.
Qed.

Lemma height_child_pair (pairs : list (MMDB_entry_data_s * tree))
    (kv : MMDB_entry_data_s * tree) :
  In kv pairs ->
  (height (snd kv)
   <= fold_right (fun kv h => Nat.max (height (snd kv)) h) O pairs)%nat.
Proof.
  induction pairs as [| x pairs IH]; intros Hin; [contradiction |].
  cbn [fold_right]. destruct Hin as [-> | Hin]; [lia |].
  specialize (IH Hin). lia.
Qed.

Lemma height_child (elements : list tree) (t : tree) :
  In t elements ->
  (height t <= fold_right (fun t' h => Nat.max (height t') h) O elements)%nat.
Proof.
  induction elements as [| x elements IH]; intros Hin; [contradiction |].
  cbn [fold_right]. destruct Hin as [-> | Hin]; [lia |].
  specialize (IH Hin). lia.
Qed.

Lemma height_le_length (t : tree) :
  (height t <= List.length (flatten t))%nat.
Proof.
  induction t as [e | e pairs IH | e elements IH] using tree_induction;
    cbn [height flatten List.length].
  - lia.
  - apply le_n_S. induction IH as [| kv pairs Hkv _ IHp]; cbn [fold_right flat_map].
    + lia.
    + rewrite length_app. cbn [List.length]. lia.
  - apply le_n_S. induction IH as [| t' elements Ht _ IHe]; cbn [fold_right flat_map].
    + lia.
    + rewrite length_app. lia.
Qed.

(** *** Decoding the flattening of a tree *)

Lemma from_entry_data_list_scalar (fuel : nat) (e : MMDB_entry_data_s)
    (rest : cursor) :
  (type e =? MMDB_DATA_TYPE_MAP) = false ->
  (type e =? MMDB_DATA_TYPE_ARRAY) = false ->
  from_entry_data_list (S fuel) (e :: rest)
  = (v <- from_scalar e ;; Ok (v, e :: rest)).
Proof. intros Hm Ha. cbn [from_entry_data_list]. rewrite Hm, Ha. reflexivity. Qed.

Lemma from_map_loop_step (recur : cursor -> result (PyObject * cursor))
    (n : nat) (c k : MMDB_entry_data_s) (q : cursor)
    (d : list (pystr * PyObject)) :
  from_map_loop recur (S n) (c :: k :: q) d
  = (key <- decode_key k ;;
     ' (value, p3) <- recur q ;;
     from_map_loop recur n p3 (PyDict_SetItem d key value)).
Proof.
  cbn [from_map_loop next entry_data bind]. unfold decode_key.
  destruct (utf8_string k); reflexivity.
Qed.

Lemma from_map_loop_complete (recur : cursor -> result (PyObject * cursor))
    (pairs : list (MMDB_entry_data_s * tree)) :
  (forall kv, In kv pairs ->
     is_ok (decode_key (fst kv)) = true
     /\ forall rest d,
         recur (flatten (snd kv) ++ rest)
         = Ok (value_of (snd kv), last (flatten (snd kv)) d :: rest)) ->
  forall c rest d,
    from_map_loop recur (List.length pairs) (c :: flatten_pairs pairs ++ rest) d
    = Ok (PyDict (fold_left set_pair pairs d),
          last (flatten_pairs pairs) c :: rest).
Proof.
  induction pairs as [| [k t] pairs IH]; intros Hrec c rest d.
  - reflexivity.
  - destruct (Hrec (k, t) (or_introl eq_refl)) as [Hkey Ht].
    cbn [fst snd] in Hkey, Ht.
    cbn [List.length flatten_pairs flat_map fst snd].
    fold (flatten_pairs pairs).
    cbn [app]. rewrite <- app_assoc, from_map_loop_step.
    destruct (decode_key k) as [key | | |] eqn:Ek; try discriminate.
    cbn [bind]. rewrite (Ht _ k). cbn [bind].
    rewrite IH by (intros kv Hin; apply Hrec; right; exact Hin).
    cbn [fold_left].
    change (set_pair d (k, t)) with (PyDict_SetItem d (key_of k) (value_of t)).
    unfold key_of. rewrite Ek, last_cons, last_app_last. reflexivity.
Qed.

Lemma set_slot_next (done : list PyObject) (tail : list (option PyObject))
    (v : PyObject) :
  set_slot (map Some done ++ None :: tail) (List.length done) v
  = map Some (done ++ [v]) ++ tail.
Proof.
  induction done as [| x done IH]; cbn [map app List.length set_slot].
  - reflexivity.
  - rewrite IH. reflexivity.
Qed.

Lemma PyList_SetItem_next (done : list PyObject) (n : nat) (v : PyObject) :
  PyList_SetItem (map Some done ++ repeat None (S n))
                 (Z.of_nat (List.length done)) v
  = map Some (done ++ [v]) ++ repeat None n.
Proof.
  unfold PyList_SetItem. rewrite Nat2Z.id. apply set_slot_next.
Qed.

Lemma index_next (done : list PyObject) (v : PyObject) :
  Z.of_nat (List.length done) + 1 = Z.of_nat (List.length (done ++ [v])).
Proof. rewrite length_app. cbn [List.length]. lia. Qed.

Lemma from_array_loop_complete (recur : cursor -> result (PyObject * cursor))
    (elements : list tree) :
  (forall t, In t elements ->
     forall rest d,
       recur (flatten t ++ rest) = Ok (value_of t, last (flatten t) d :: rest)) ->
  forall done c rest,
    from_array_loop recur (List.length elements)
      (Z.of_nat (List.length done))
      (c :: flat_map flatten elements ++ rest)
      (map Some done ++ repeat None (List.length elements))
    = Ok (PyList (map Some (done ++ map value_of elements)),
          last (flat_map flatten elements) c :: rest).
Proof.
  induction elements as [| t elements IH]; intros Hrec done c rest.
  - cbn [List.length from_array_loop repeat map flat_map app last].
    rewrite !app_nil_r. reflexivity.
  - cbn [List.length flat_map from_array_loop next bind].
    rewrite <- app_assoc, (Hrec t (or_introl eq_refl) _ c). cbn [bind].
    rewrite PyList_SetItem_next, (index_next done (value_of t)).
    rewrite IH by (intros t' Hin; apply Hrec; right; exact Hin).
    cbn [map]. rewrite <- app_assoc, last_app_last. reflexivity.
Qed.

Lemma wf_pairs_inv (pairs : list (MMDB_entry_data_s * tree))
    (kv : MMDB_entry_data_s * tree) :
  forallb (fun kv => is_ok (decode_key (fst kv)) && wf_tree (snd kv)) pairs
  = true ->
  In kv pairs ->
  is_ok (decode_key (fst kv)) = true /\ wf_tree (snd kv) = true.
Proof.
  intros Hall Hin. rewrite forallb_forall in Hall.
  apply andb_true_iff. exact (Hall kv Hin).
Qed.

(** Completeness: the flattening of a well-formed tree, followed by
    anything, decodes to the value of the tree and leaves the cursor on
    the last node of the tree. *)
Lemma from_entry_data_list_complete (t : tree) :
  wf_tree t = true ->
  forall fuel, (height t <= fuel)%nat ->
  forall rest d,
    from_entry_data_list fuel (flatten t ++ rest)
    = Ok (value_of t, last (flatten t) d :: rest).
Proof.
  induction t as [e | e pairs IH | e elements IH] using tree_induction;
    intros Hwf fuel Hfuel rest d; cbn [wf_tree] in Hwf;
    (destruct fuel as [| fuel]; [cbn [height] in Hfuel; lia |]).
  - apply andb_true_iff in Hwf as [Hwf Hok].
    apply andb_true_iff in Hwf as [Hm Ha].
    apply negb_true_iff in Hm, Ha.
    cbn [flatten app]. rewrite from_entry_data_list_scalar by assumption.
    cbn [value_of last]. destruct (from_scalar e); try discriminate.
    reflexivity.
  - apply andb_true_iff in Hwf as [Hwf Hall].
    apply andb_true_iff in Hwf as [Hm Hsize].
    apply Nat.eqb_eq in Hsize.
    cbn [flatten app from_entry_data_list]. rewrite Hm.
    unfold from_map. cbn [entry_data bind]. rewrite Hsize.
    fold (flatten_pairs pairs).
    rewrite from_map_loop_complete.
    + rewrite last_cons. reflexivity.
    + intros kv Hin. destruct (wf_pairs_inv pairs kv Hall Hin) as [Hk Hw].
      split; [exact Hk |]. intros rest' d'.
      rewrite Forall_forall in IH. apply (IH kv Hin Hw).
      pose proof (height_child_pair pairs kv Hin). cbn [height] in Hfuel. lia.
  - apply andb_true_iff in Hwf as [Hwf Hall].
    apply andb_true_iff in Hwf as [Hwf Hsize].
    apply andb_true_iff in Hwf as [Hm Ha].
    apply negb_true_iff in Hm. apply Nat.eqb_eq in Hsize.
    cbn [flatten app from_entry_data_list]. rewrite Hm, Ha.
    unfold from_array. cbn [entry_data bind]. unfold PyList_New.
    rewrite Hsize.
    assert (Hrec : forall t, In t elements ->
              forall rest' d',
                from_entry_data_list fuel (flatten t ++ rest')
                = Ok (value_of t, last (flatten t) d' :: rest')).
    { intros t Hin rest' d'. rewrite Forall_forall in IH.
      rewrite forallb_forall in Hall. apply (IH t Hin (Hall t Hin)).
      pose proof (height_child elements t Hin). cbn [height] in Hfuel. lia. }
    pose proof (from_array_loop_complete _ elements Hrec [] e rest) as Hloop.
    cbn [map app List.length Z.of_nat] in Hloop. rewrite Hloop.
    cbn [value_of]. rewrite last_cons, map_map. reflexivity.
Qed.

Lemma decode_complete (t : tree) (rest : cursor) :
  wf_tree t = true -> decode (flatten t ++ rest) = Ok (value_of t).
Proof.
  intros Hwf. unfold decode.
  assert (Hfuel : (height t <= S (List.length (flatten t ++ rest)))%nat).
  { pose proof (height_le_length t). rewrite length_app. lia. }
  rewrite (from_entry_data_list_complete t Hwf _ Hfuel rest (map_node 0)).
  reflexivity.
Qed.

(** *** What a returned value is *)

Lemma from_map_loop_sound (recur : cursor -> result (PyObject * cursor)) :
  returns_whole_trees recur ->
  forall n c q d v p',
    from_map_loop recur n (c :: q) d = Ok (v, p') ->
    exists pairs rest,
      q = flatten_pairs pairs ++ rest
      /\ List.length pairs = n
      /\ forallb (fun kv => is_ok (decode_key (fst kv)) && wf_tree (snd kv))
                 pairs = true
      /\ v = PyDict (fold_left set_pair pairs d)
      /\ p' = last (flatten_pairs pairs) c :: rest.
Proof.
  intros Hrec. induction n as [| n IH]; intros c q d v p' Hrun.
  - cbn [from_map_loop] in Hrun. injection Hrun as <- <-.
    exists [], q. repeat split.
  - destruct q as [| k q1]; [discriminate Hrun |].
    rewrite from_map_loop_step in Hrun.
    destruct (decode_key k) as [key | | |] eqn:Ek; try discriminate Hrun.
    cbn [bind] in Hrun.
    destruct (recur q1) as [[value p3] | | |] eqn:Er; try discriminate Hrun.
    cbn [bind] in Hrun.
    destruct (Hrec _ _ _ Er) as (t & rest1 & -> & Hwf & -> & Hp3).
    rewrite (Hp3 k) in Hrun.
    destruct (IH _ _ _ _ _ Hrun) as (pairs & rest & -> & Hlen & Hall & -> & ->).
    exists ((k, t) :: pairs), rest.
    cbn [flatten_pairs flat_map fst snd List.length forallb fold_left].
    fold (flatten_pairs pairs).
    change (set_pair d (k, t)) with (PyDict_SetItem d (key_of k) (value_of t)).
    unfold key_of. rewrite Ek, Hwf, Hall, Hlen. cbn [is_ok andb app].
    rewrite <- app_assoc, last_cons, last_app_last. repeat split.
Qed.

Lemma from_array_loop_sound (recur : cursor -> result (PyObject * cursor)) :
  returns_whole_trees recur ->
  forall n done c q v p',
    from_array_loop recur n (Z.of_nat (List.length done)) (c :: q)
                    (map Some done ++ repeat None n) = Ok (v, p') ->
    exists elements rest,
      q = flat_map flatten elements ++ rest
      /\ List.length elements = n
      /\ forallb wf_tree elements = true
      /\ v = PyList (map Some (done ++ map value_of elements))
      /\ p' = last (flat_map flatten elements) c :: rest.
Proof.
  intros Hrec. induction n as [| n IH]; intros done c q v p' Hrun.
  - cbn [from_array_loop repeat] in Hrun. injection Hrun as <- <-.
    exists [], q. cbn [map]. rewrite !app_nil_r. repeat split.
  - cbn [from_array_loop next bind] in Hrun.
    destruct (recur q) as [[value p2] | | |] eqn:Er; try discriminate Hrun.
    cbn [bind] in Hrun.
    destruct (Hrec _ _ _ Er) as (t & rest1 & -> & Hwf & -> & Hp2).
    rewrite (Hp2 c), PyList_SetItem_next, (index_next done (value_of t))
      in Hrun.
    destruct (IH _ _ _ _ _ Hrun)
      as (elements & rest & -> & Hlen & Hall & -> & ->).
    exists (t :: elements), rest.
    cbn [flat_map List.length forallb map].
    rewrite Hwf, Hall, Hlen. cbn [andb].
    rewrite <- !app_assoc, last_app_last. repeat split.
Qed.

(** Soundness: whatever [from_entry_data_list] returns is the value of
    a well-formed tree whose flattening starts the list. *)
Lemma from_entry_data_list_sound (fuel : nat) :
  returns_whole_trees (from_entry_data_list fuel).
Proof.
  induction fuel as [| fuel IH]; intros p v p' Hrun; [discriminate Hrun |].
  destruct p as [| e q]; [discriminate Hrun |].
  cbn [from_entry_data_list] in Hrun.
  destruct (type e =? MMDB_DATA_TYPE_MAP) eqn:Hm.
  - unfold from_map in Hrun. cbn [entry_data bind] in Hrun.
    destruct (from_map_loop_sound _ IH _ _ _ _ _ _ Hrun)
      as (pairs & rest & -> & Hlen & Hall & -> & ->).
    exists (T_map e pairs), rest. cbn [flatten wf_tree value_of].
    rewrite Hm, Hall, Hlen, Nat.eqb_refl.
    repeat split. intros d. rewrite last_cons. reflexivity.
  - destruct (type e =? MMDB_DATA_TYPE_ARRAY) eqn:Ha.
    + unfold from_array in Hrun. cbn [entry_data bind] in Hrun.
      destruct (from_array_loop_sound _ IH _ [] _ _ _ _ Hrun)
        as (elements & rest & -> & Hlen & Hall & -> & ->).
      exists (T_array e elements), rest. cbn [flatten wf_tree value_of app].
      rewrite Hm, Ha, Hall, Hlen, Nat.eqb_refl, map_map.
      repeat split. intros d. rewrite last_cons. reflexivity.
    + destruct (from_scalar e) as [v0 | | |] eqn:Es; try discriminate Hrun.
      cbn [bind] in Hrun. injection Hrun as <- <-.
      exists (T_leaf e), q. cbn [flatten wf_tree value_of].
      rewrite Hm, Ha, Es. repeat split.
Qed.

(** *** The recursion bound *)

Lemma decode_key_uses_no_fuel (k : MMDB_entry_data_s) :
  decode_key k <> OutOfFuel.
Proof.
  unfold decode_key, utf8_string, PyUnicode_FromStringAndSize, read_buffer.
  destruct (payload k); cbn [bind]; try discriminate.
  destruct (data_size k <=? Z.of_nat (List.length buf)); cbn [bind];
    [| discriminate].
  destruct (utf8_decode _); discriminate.
Qed.

Lemma from_uint128_uses_no_fuel (e : MMDB_entry_data_s) :
  from_uint128 e <> OutOfFuel.
Proof.
  unfold from_uint128, uint128, PyLong_FromString_16.
  destruct (payload e); cbn [bind]; try discriminate.
  destruct (to_hex 16 _ ++ to_hex 16 _); [discriminate |].
  destruct (of_hex _ 0); discriminate.
Qed.

Lemma from_scalar_uses_no_fuel (e : MMDB_entry_data_s) :
  from_scalar e <> OutOfFuel.
Proof.
  pose proof (from_uint128_uses_no_fuel e) as H128.
  unfold from_scalar, utf8_string, bytes, double_value, float_value, uint16,
    uint32, boolean, uint64, int32, PyUnicode_FromStringAndSize,
    PyByteArray_FromStringAndSize, read_buffer.
  repeat match goal with
         | |- (if ?b then _ else _) <> _ => destruct b
         end;
    try discriminate; try exact H128;
    destruct (payload e); cbn [bind]; try discriminate;
    destruct (data_size e <=? Z.of_nat (List.length buf)); cbn [bind];
    try discriminate.
  destruct (utf8_decode _); discriminate.
Qed.

Lemma from_map_loop_uses_no_fuel
    (recur : cursor -> result (PyObject * cursor)) (bound : nat) :
  returns_whole_trees recur ->
  (forall p, (List.length p < bound)%nat -> recur p <> OutOfFuel) ->
  forall n c q d,
    (List.length q < bound)%nat ->
    from_map_loop recur n (c :: q) d <> OutOfFuel.
Proof.
  intros Hsound Hrec. induction n as [| n IH]; intros c q d Hlen.
  - discriminate.
  - destruct q as [| k q1]; [discriminate |].
    rewrite from_map_loop_step. cbn [List.length] in Hlen.
    pose proof (decode_key_uses_no_fuel k) as Hk.
    destruct (decode_key k) as [key | | |]; cbn [bind];
      try discriminate; try congruence.
    pose proof (Hrec q1 ltac:(lia)) as Hq.
    destruct (recur q1) as [[value p3] | | |] eqn:Er; cbn [bind];
      try discriminate; try congruence.
    destruct (Hsound _ _ _ Er) as (t & rest & -> & _ & _ & Hp3).
    rewrite (Hp3 k). apply IH. rewrite length_app in Hlen. lia.
Qed.

Lemma from_array_loop_uses_no_fuel
    (recur : cursor -> result (PyObject * cursor)) (bound : nat) :
  returns_whole_trees recur ->
  (forall p, (List.length p < bound)%nat -> recur p <> OutOfFuel) ->
  forall n i c q l,
    (List.length q < bound)%nat ->
    from_array_loop recur n i (c :: q) l <> OutOfFuel.
Proof.
  intros Hsound Hrec. induction n as [| n IH]; intros i c q l Hlen.
  - discriminate.
  - cbn [from_array_loop next bind].
    pose proof (Hrec q Hlen) as Hq.
    destruct (recur q) as [[value p2] | | |] eqn:Er; cbn [bind];
      try discriminate; try congruence.
    destruct (Hsound _ _ _ Er) as (t & rest & -> & _ & _ & Hp2).
    rewrite (Hp2 c). apply IH. rewrite length_app in Hlen. lia.
Qed.

Lemma from_entry_data_list_uses_no_fuel (fuel : nat) :
  forall p, (List.length p < fuel)%nat ->
            from_entry_data_list fuel p <> OutOfFuel.
Proof.
  induction fuel as [| fuel IH]; intros p Hlen; [lia |].
  destruct p as [| e q]; [discriminate |].
  cbn [List.length] in Hlen. cbn [from_entry_data_list].
  destruct (type e =? MMDB_DATA_TYPE_MAP).
  - unfold from_map. cbn [entry_data bind].
    apply (from_map_loop_uses_no_fuel _ fuel);
      [apply from_entry_data_list_sound | exact IH | lia].
  - destruct (type e =? MMDB_DATA_TYPE_ARRAY).
    + unfold from_array. cbn [entry_data bind].
      apply (from_array_loop_uses_no_fuel _ fuel);
        [apply from_entry_data_list_sound | exact IH | lia].
    + pose proof (from_scalar_uses_no_fuel e) as Hs.
      destruct (from_scalar e); cbn [bind]; try discriminate; congruence.
Qed.

(** The decoder always ends within the bound [decode] gives it. *)
Lemma decode_total (p : cursor) : decode p <> OutOfFuel.
Proof.
  unfold decode.
  pose proof (from_entry_data_list_uses_no_fuel (S (List.length p)) p
                ltac:(lia)) as H.
  destruct (from_entry_data_list (S (List.length p)) p) as [[v p'] | | |];
    cbn [bind]; try discriminate; congruence.
Qed.

(** More fuel does not change a result. *)
Lemma from_map_loop_extends (r1 r2 : cursor -> result (PyObject * cursor)) :
  extends r1 r2 ->
  forall n p d,
    from_map_loop r1 n p d <> OutOfFuel ->
    from_map_loop r2 n p d = from_map_loop r1 n p d.
Proof.
  intros Hext. induction n as [| n IH]; intros p d Hrun; [reflexivity |].
  cbn [from_map_loop] in *.
  destruct (next p) as [p1 | | |]; cbn [bind] in *; try reflexivity.
  destruct (entry_data p1) as [e | | |]; cbn [bind] in *; try reflexivity.
  destruct (utf8_string e) as [u | | |]; cbn [bind] in *; try reflexivity.
  destruct (PyUnicode_FromStringAndSize u (data_size e)) as [key | | |];
    cbn [bind] in *; try reflexivity.
  destruct (next p1) as [p2 | | |]; cbn [bind] in *; try reflexivity.
  destruct (r1 p2) as [[value p3] | | |] eqn:E1;
    try (rewrite (Hext p2) by congruence; rewrite E1; reflexivity).
  - rewrite (Hext p2) by congruence. rewrite E1. cbn [bind] in *.
    apply IH, Hrun.
  - cbn [bind] in Hrun. congruence.
Qed.

Lemma from_array_loop_extends (r1 r2 : cursor -> result (PyObject * cursor)) :
  extends r1 r2 ->
  forall n i p l,
    from_array_loop r1 n i p l <> OutOfFuel ->
    from_array_loop r2 n i p l = from_array_loop r1 n i p l.
Proof.
  intros Hext. induction n as [| n IH]; intros i p l Hrun; [reflexivity |].
  cbn [from_array_loop] in *.
  destruct (next p) as [p1 | | |]; cbn [bind] in *; try reflexivity.
  destruct (r1 p1) as [[value p2] | | |] eqn:E1;
    try (rewrite (Hext p1) by congruence; rewrite E1; reflexivity).
  - rewrite (Hext p1) by congruence. rewrite E1. cbn [bind] in *.
    apply IH, Hrun.
  - cbn [bind] in Hrun. congruence.
Qed.

Lemma from_entry_data_list_more_fuel (fuel : nat) :
  extends (from_entry_data_list fuel) (from_entry_data_list (S fuel)).
Proof.
  induction fuel as [| fuel IH]; intros p Hrun; [cbn in Hrun; congruence |].
  destruct p as [| e q]; [reflexivity |].
  cbn [from_entry_data_list] in Hrun.
  change (from_entry_data_list (S (S fuel)) (e :: q))
    with (if type e =? MMDB_DATA_TYPE_MAP then
            from_map (from_entry_data_list (S fuel)) (e :: q)
          else if type e =? MMDB_DATA_TYPE_ARRAY then
            from_array (from_entry_data_list (S fuel)) (e :: q)
          else v <- from_scalar e ;; Ok (v, e :: q)).
  change (from_entry_data_list (S fuel) (e :: q))
    with (if type e =? MMDB_DATA_TYPE_MAP then
            from_map (from_entry_data_list fuel) (e :: q)
          else if type e =? MMDB_DATA_TYPE_ARRAY then
            from_array (from_entry_data_list fuel) (e :: q)
          else v <- from_scalar e ;; Ok (v, e :: q)).
  destruct (type e =? MMDB_DATA_TYPE_MAP).
  - unfold from_map in *. cbn [entry_data bind] in *.
    apply from_map_loop_extends; assumption.
  - destruct (type e =? MMDB_DATA_TYPE_ARRAY); [| reflexivity].
    unfold from_array in *. cbn [entry_data bind] in *.
    apply from_array_loop_extends; assumption.
Qed.

(** The result of [decode] is the result for every larger bound. *)
Lemma decode_any_fuel (p : cursor) (extra : nat) :
  from_entry_data_list (extra + S (List.length p)) p
  = from_entry_data_list (S (List.length p)) p.
Proof.
  induction extra as [| extra IH]; [reflexivity |].
  cbn [Nat.add]. rewrite <- IH.
  apply from_entry_data_list_more_fuel. rewrite IH.
  apply from_entry_data_list_uses_no_fuel. lia.
Qed.

(** ** Dictionaries filled by [PyDict_SetItem] *)

Lemma pystr_eqb_eq (a b : pystr) : pystr_eqb a b = true <-> a = b.
Proof.
  unfold pystr_eqb. destruct (list_eq_dec Z.eq_dec a b); split;
    intros H; congruence.
Qed.

Lemma pystr_eqb_refl (a : pystr) : pystr_eqb a a = true.
Proof. apply pystr_eqb_eq. reflexivity. Qed.

Lemma pystr_eqb_sym (a b : pystr) : pystr_eqb a b = pystr_eqb b a.
Proof.
  destruct (pystr_eqb a b) eqn:E1, (pystr_eqb b a) eqn:E2; try reflexivity.
  - apply pystr_eqb_eq in E1. subst. rewrite pystr_eqb_refl in E2. discriminate.
  - apply pystr_eqb_eq in E2. subst. rewrite pystr_eqb_refl in E1. discriminate.
Qed.

Lemma has_key_In (keys : list pystr) (key : pystr) :
  has_key keys key = true <-> In key keys.
Proof.
  unfold has_key. rewrite existsb_exists. split.
  - intros (k' & Hin & Heq). apply pystr_eqb_eq in Heq. subst. exact Hin.
  - intros Hin. exists key. split; [exact Hin | apply pystr_eqb_refl].
Qed.

Lemma fold_set_pair (pairs : list (MMDB_entry_data_s * tree)) : forall d,
  fold_left set_pair pairs d = fill d (decoded_pairs pairs).
Proof.
  induction pairs as [| kv pairs IH]; intros d; [reflexivity |].
  cbn [fold_left decoded_pairs map]. unfold fill. cbn [fold_left].
  apply IH.
Qed.

Lemma GetItem_SetItem (d : list (pystr * PyObject)) (k k' : pystr)
    (v : PyObject) :
  PyDict_GetItem (PyDict_SetItem d k v) k'
  = if pystr_eqb k k' then Some v else PyDict_GetItem d k'.
Proof.
  unfold PyDict_GetItem.
  induction d as [| [k0 v0] d IH]; cbn [PyDict_SetItem find fst].
  - destruct (pystr_eqb k k'); reflexivity.
  - destruct (pystr_eqb k0 k) eqn:E0.
    + apply pystr_eqb_eq in E0. subst k0. cbn [find fst].
      destruct (pystr_eqb k k'); reflexivity.
    + cbn [find fst]. destruct (pystr_eqb k0 k') eqn:E1.
      * apply pystr_eqb_eq in E1. subst k'. rewrite pystr_eqb_sym, E0.
        reflexivity.
      * exact IH.
Qed.

Lemma keys_SetItem (d : list (pystr * PyObject)) (k : pystr) (v : PyObject) :
  map fst (PyDict_SetItem d k v)
  = if has_key (map fst d) k then map fst d else map fst d ++ [k].
Proof.
  induction d as [| [k0 v0] d IH]; cbn [PyDict_SetItem map fst has_key existsb].
  - reflexivity.
  - destruct (pystr_eqb k0 k) eqn:E0; cbn [orb map fst]; [reflexivity |].
    rewrite IH. fold (has_key (map fst d) k).
    destruct (has_key (map fst d) k); reflexivity.
Qed.

Lemma NoDup_SetItem (d : list (pystr * PyObject)) (k : pystr) (v : PyObject) :
  NoDup (map fst d) -> NoDup (map fst (PyDict_SetItem d k v)).
Proof.
  intros Hd. rewrite keys_SetItem.
  destruct (has_key (map fst d) k) eqn:Hk; [exact Hd |].
  apply NoDup_app; [exact Hd | repeat constructor; intros [] |].
  intros a Ha [<- | []]. apply has_key_In in Ha. congruence.
Qed.

Lemma NoDup_fill (kvs : list (pystr * PyObject)) : forall d,
  NoDup (map fst d) -> NoDup (map fst (fill d kvs)).
Proof.
  induction kvs as [| kv kvs IH]; intros d Hd; [exact Hd |].
  unfold fill. cbn [fold_left]. apply IH, NoDup_SetItem, Hd.
Qed.

Lemma find_app_first {A : Type} (f : A -> bool) (a b : list A) :
  find f (a ++ b)
  = match find f a with Some x => Some x | None => find f b end.
Proof.
  induction a as [| x a IH]; cbn [app find]; [reflexivity |].
  destruct (f x); [reflexivity | exact IH].
Qed.

Lemma last_binding_cons (kv : pystr * PyObject)
    (kvs : list (pystr * PyObject)) (key : pystr) :
  last_binding (kv :: kvs) key
  = match last_binding kvs key with
    | Some v => Some v
    | None => if pystr_eqb (fst kv) key then Some (snd kv) else None
    end.
Proof.
  unfold last_binding, PyDict_GetItem. cbn [rev].
  rewrite find_app_first.
  destruct (find _ (rev kvs)); cbn [option_map find]; [reflexivity |].
  destruct (pystr_eqb (fst kv) key); reflexivity.
Qed.

Lemma GetItem_fill (kvs : list (pystr * PyObject)) : forall d key,
  PyDict_GetItem (fill d kvs) key
  = match last_binding kvs key with
    | Some v => Some v
    | None => PyDict_GetItem d key
    end.
Proof.
  induction kvs as [| [k v] kvs IH]; intros d key; [reflexivity |].
  unfold fill. cbn [fold_left fst snd]. fold (fill (PyDict_SetItem d k v) kvs).
  rewrite IH, last_binding_cons, GetItem_SetItem. cbn [fst snd].
  destruct (last_binding kvs key); [reflexivity |].
  destruct (pystr_eqb k key); reflexivity.
Qed.

Lemma filter_filter {A : Type} (f g : A -> bool) (l : list A) :
  filter f (filter g l) = filter (fun x => g x && f x) l.
Proof.
  induction l as [| x l IH]; cbn [filter]; [reflexivity |].
  destruct (g x); cbn [filter andb]; [| exact IH].
  destruct (f x); [f_equal |]; exact IH.
Qed.

Lemma keys_fill (kvs : list (pystr * PyObject)) : forall d,
  map fst (fill d kvs)
  = map fst d
    ++ filter (fun k => negb (has_key (map fst d) k))
              (first_occurrences (map fst kvs)).
Proof.
  induction kvs as [| [k v] kvs IH]; intros d.
  - cbn [fill fold_left map first_occurrences filter]. unfold fill.
    cbn [fold_left]. rewrite app_nil_r. reflexivity.
  - unfold fill. cbn [fold_left fst snd].
    fold (fill (PyDict_SetItem d k v) kvs).
    rewrite IH, keys_SetItem. cbn [map fst first_occurrences filter].
    destruct (has_key (map fst d) k) eqn:Hk; cbn [negb].
    + f_equal. rewrite filter_filter. apply filter_ext. intros a.
      destruct (pystr_eqb a k) eqn:Ea; cbn [negb andb]; [| reflexivity].
      apply pystr_eqb_eq in Ea. subst a. rewrite Hk. reflexivity.
    + rewrite <- app_assoc. cbn [app]. do 2 f_equal.
      rewrite filter_filter. apply filter_ext. intros a.
      unfold has_key. rewrite existsb_app. cbn [existsb].
      rewrite orb_false_r, negb_orb, (pystr_eqb_sym k a).
      apply andb_comm.
Qed.

Lemma In_first_occurrences (keys : list pystr) (key : pystr) :
  In key (first_occurrences keys) <-> In key keys.
Proof.
  induction keys as [| k keys IH]; cbn [first_occurrences In]; [tauto |].
  rewrite filter_In, IH. split.
  - intros [H | [H _]]; auto.
  - intros [H | H]; [auto |].
    destruct (pystr_eqb key k) eqn:E.
    + left. apply pystr_eqb_eq in E. congruence.
    + right. split; [exact H | reflexivity].
Qed.

(** ** Failures inside containers, and duplicate keys *)

Lemma from_map_loop_value_fails
    (recur : cursor -> result (PyObject * cursor)) (n : nat)
    (c k : MMDB_entry_data_s) (rest : cursor) (d : list (pystr * PyObject)) :
  is_ok (recur rest) = false ->
  is_ok (from_map_loop recur (S n) (c :: k :: rest) d) = false.
Proof.
  intros Hfail. rewrite from_map_loop_step.
  destruct (decode_key k); cbn [bind is_ok]; try reflexivity.
  destruct (recur rest); cbn [bind is_ok] in *; congruence.
Qed.

Lemma from_array_loop_element_fails
    (recur : cursor -> result (PyObject * cursor)) (n : nat) (i : Z)
    (c : MMDB_entry_data_s) (rest : cursor) (l : list (option PyObject)) :
  is_ok (recur rest) = false ->
  is_ok (from_array_loop recur (S n) i (c :: rest) l) = false.
Proof.
  intros Hfail. cbn [from_array_loop next bind].
  destruct (recur rest); cbn [bind is_ok] in *; congruence.
Qed.

(** C8.  A value comes back from the decoder only as the value of a
    whole tree: the list starts with the flattening of a well-formed
    tree, every Map of it was filled from all the pairs it announces and
    every Array has all its elements, at every depth.  In the loops of
    [from_map] and [from_array] a nested call that fails, at any
    iteration, makes the loop fail, and so no container is returned. *)
Theorem decode_returns_no_partial_container :
  (forall (p : cursor) (v : PyObject),
      decode p = Ok v ->
      exists (t : tree) (rest : cursor),
        p = flatten t ++ rest /\ wf_tree t = true /\ v = value_of t)
  /\ (forall recur n c k rest d,
         is_ok (recur rest) = false ->
         is_ok (from_map_loop recur (S n) (c :: k :: rest) d) = false)
  /\ (forall recur n i c rest l,
         is_ok (recur rest) = false ->
         is_ok (from_array_loop recur (S n) i (c :: rest) l) = false).
Proof.
  split; [| split].
  - intros p v Hrun. unfold decode in Hrun.
    destruct (from_entry_data_list (S (List.length p)) p)
      as [[v' p'] | | |] eqn:E; try discriminate Hrun.
    cbn [bind] in Hrun. injection Hrun as <-.
    destruct (from_entry_data_list_sound _ _ _ _ E)
      as (t & rest & Hp & Hwf & Hv & _).
    exists t, rest. auto.
  - exact from_map_loop_value_fails.
  - exact from_array_loop_element_fails.
Qed.

Lemma decode_returns_no_partial_container_witness :
  (exists (t : tree) (rest : cursor),
      [array_node 2; uint32_node 1; uint32_node 2; uint32_node 3]
      = flatten t ++ rest
      /\ wf_tree t = true
      /\ PyList [Some (PyLong 1); Some (PyLong 2)] = value_of t)
  /\ is_ok (from_array_loop (from_entry_data_list 1) 2 0
              [array_node 2; mk_entry_data (U_uint32 0) 0 13; uint32_node 2]
              (PyList_New 2)) = false.
Proof.
  split.
  - apply (proj1 decode_returns_no_partial_container
                 [array_node 2; uint32_node 1; uint32_node 2; uint32_node 3]).
    reflexivity.
  - apply (proj2 (proj2 decode_returns_no_partial_container)).
    reflexivity.
Defined.

(** C10.  A well-formed Map, with or without repeated keys, decodes to
    a dictionary.  With the pairs decoded in pre-order (each key as the
    key step decodes it, each value as the decoder decodes its subtree),
    the dictionary holds every key once, in the order of first
    occurrence, bound to the value of its last occurrence. *)
Theorem map_duplicate_keys_last_wins (e : MMDB_entry_data_s)
    (pairs : list (MMDB_entry_data_s * tree)) (rest : cursor) :
  wf_tree (T_map e pairs) = true ->
  exists d : list (pystr * PyObject),
    decode (flatten (T_map e pairs) ++ rest) = Ok (PyDict d)
    /\ (forall kv, In kv pairs ->
          decode_key (fst kv) = Ok (key_of (fst kv))
          /\ forall rest',
              decode (flatten (snd kv) ++ rest') = Ok (value_of (snd kv)))
    /\ NoDup (map fst d)
    /\ map fst d = first_occurrences (map fst (decoded_pairs pairs))
    /\ (forall key,
          In key (map fst d) <-> In key (map fst (decoded_pairs pairs)))
    /\ (forall key,
          PyDict_GetItem d key = last_binding (decoded_pairs pairs) key).
Proof.
  intros Hwf. exists (fill [] (decoded_pairs pairs)).
  assert (Hkeys : map fst (fill [] (decoded_pairs pairs))
                  = first_occurrences (map fst (decoded_pairs pairs))).
  { rewrite keys_fill. cbn [map app]. apply forallb_filter_id.
    apply forallb_forall. reflexivity. }
  split; [| split; [| split; [| split; [| split]]]].
  - rewrite (decode_complete _ rest Hwf). cbn [value_of].
    change (fun d kv => PyDict_SetItem d (key_of (fst kv)) (value_of (snd kv)))
      with set_pair.
    rewrite fold_set_pair. reflexivity.
  - intros kv Hin. cbn [wf_tree] in Hwf.
    apply andb_true_iff in Hwf as [_ Hall].
    destruct (wf_pairs_inv pairs kv Hall Hin) as [Hk Hw]. split.
    + unfold key_of. destruct (decode_key (fst kv)); try discriminate Hk.
      reflexivity.
    + intros rest'. apply decode_complete, Hw.
  - apply NoDup_fill. constructor.
  - exact Hkeys.
  - intros key. rewrite Hkeys. apply In_first_occurrences.
  - intros key. rewrite GetItem_fill.
    destruct (last_binding (decoded_pairs pairs) key); reflexivity.
Qed.

Lemma map_duplicate_keys_last_wins_witness :
  exists d : list (pystr * PyObject),
    decode [map_node 3; string_node [x61]; uint32_node 1;
            string_node [x62]; uint32_node 2;
            string_node [x61]; uint32_node 3]
    = Ok (PyDict d)
    /\ NoDup (map fst d)
    /\ map fst d = [[97]; [98]]
    /\ PyDict_GetItem d [97] = Some (PyLong 3)
    /\ PyDict_GetItem d [98] = Some (PyLong 2).
Proof.
  destruct (map_duplicate_keys_last_wins (map_node 3) demo_pairs [] eq_refl)
    as (d & Hdec & _ & Hnodup & Hkeys & _ & Hget).
  exists d. rewrite !Hget.
  split; [exact Hdec | split; [exact Hnodup |]].
  rewrite Hkeys. split; [| split]; reflexivity.
Defined.


(** * Further properties of the decoder *)

(** X1.  The flattening of any well-formed tree (Maps and Arrays nested
    to any depth), followed by any nodes, decodes to the value of the
    tree; the nodes after the tree play no part. *)
Theorem decode_of_flattened_tree (t : tree) (rest : cursor) :
  wf_tree t = true ->
  decode (flatten t ++ rest) = Ok (value_of t)
  /\ decode (flatten t ++ rest) = decode (flatten t).
Proof.
  intros Hwf. rewrite (decode_complete t rest Hwf).
  split; [reflexivity |].
  pose proof (decode_complete t [] Hwf) as Halone.
  rewrite app_nil_r in Halone. rewrite Halone. reflexivity.
Qed.

Lemma decode_of_flattened_tree_witness :
  decode [array_node 2; map_node 1; string_node [x61]; uint32_node 1;
          string_node [xc3; xa9]; uint32_node 9]
  = Ok (PyList [Some (PyDict [([97], PyLong 1)]); Some (PyUnicode [233])]).
Proof.
  exact (proj1 (decode_of_flattened_tree demo_tree [uint32_node 9] eq_refl)).
Defined.

Lemma skipn_to_last (l rest : list MMDB_entry_data_s) (d : MMDB_entry_data_s) :
  l <> [] ->
  skipn (List.length l - 1) (l ++ rest) = last l d :: rest.
Proof.
  induction l as [| x l IH]; intros Hne; [congruence |].
  destruct l as [| y l]; [reflexivity |].
  change (last (x :: y :: l) d) with (last (y :: l) d).
  rewrite <- IH by discriminate.
  cbn [List.length app skipn Nat.sub]. rewrite Nat.sub_0_r. reflexivity.
Qed.

(** X2.  A call that returns leaves the shared cursor inside the list
    it was given, at or after the node it started on: the cursor only
    moves forward and is not NULL after a successful call. *)
Theorem cursor_moves_forward (fuel : nat) (p p' : cursor) (v : PyObject) :
  from_entry_data_list fuel p = Ok (v, p') ->
  exists k : nat, (k < List.length p)%nat /\ p' = skipn k p /\ p' <> [].
Proof.
  intros Hrun.
  destruct (from_entry_data_list_sound fuel p v p' Hrun)
    as (t & rest & -> & _ & _ & Hp').
  destruct (flatten_root t) as (e & l & Hl).
  exists (List.length (flatten t) - 1)%nat.
  split; [rewrite length_app, Hl; cbn [List.length]; lia |].
  rewrite (Hp' e). split; [| discriminate].
  symmetry. apply skipn_to_last. rewrite Hl. discriminate.
Qed.

Lemma cursor_moves_forward_witness :
  exists k : nat,
    (k < 4)%nat
    /\ [uint32_node 2; uint32_node 3]
       = skipn k [array_node 2; uint32_node 1; uint32_node 2; uint32_node 3]
    /\ [uint32_node 2; uint32_node 3] <> [].
Proof.
  exact (cursor_moves_forward 2
           [array_node 2; uint32_node 1; uint32_node 2; uint32_node 3]
           [uint32_node 2; uint32_node 3]
           (PyList [Some (PyLong 1); Some (PyLong 2)]) eq_refl).
Defined.

Lemma decode_ok_tree (p : cursor) (v : PyObject) :
  decode p = Ok v ->
  exists t rest, p = flatten t ++ rest /\ wf_tree t = true /\ v = value_of t.
Proof.
  intros Hrun. unfold decode in Hrun.
  destruct (from_entry_data_list (S (List.length p)) p)
    as [[v' p'] | | |] eqn:E; try discriminate Hrun.
  cbn [bind] in Hrun. injection Hrun as <-.
  destruct (from_entry_data_list_sound _ _ _ _ E)
    as (t & rest & Hp & Hwf & Hv & _).
  exists t, rest. auto.
Qed.

Lemma length_SetItem (d : list (pystr * PyObject)) (k : pystr) (v : PyObject) :
  (List.length (PyDict_SetItem d k v) <= S (List.length d))%nat.
Proof.
  induction d as [| [k0 v0] d IH]; cbn [PyDict_SetItem List.length]; [lia |].
  destruct (pystr_eqb k0 k); cbn [List.length]; lia.
Qed.

Lemma length_fill (kvs : list (pystr * PyObject)) : forall d,
  (List.length (fill d kvs) <= List.length d + List.length kvs)%nat.
Proof.
  induction kvs as [| kv kvs IH]; intros d.
  - unfold fill. cbn [fold_left List.length]. lia.
  - change (fill d (kv :: kvs))
      with (fill (PyDict_SetItem d (fst kv) (snd kv)) kvs).
    cbn [List.length].
    eapply Nat.le_trans; [apply IH |].
    rewrite Nat.add_succ_r, <- Nat.add_succ_l.
    apply Nat.add_le_mono_r, length_SetItem.
Qed.

Lemma length_flatten_pos (t : tree) : (1 <= List.length (flatten t))%nat.
Proof.
  destruct (flatten_root t) as (e & l & ->). cbn [List.length]. lia.
Qed.

Lemma length_flatten_elements (elements : list tree) :
  (List.length elements <= List.length (flat_map flatten elements))%nat.
Proof.
  induction elements as [| t elements IH]; cbn [flat_map List.length]; [lia |].
  rewrite length_app. pose proof (length_flatten_pos t). lia.
Qed.

Lemma length_flatten_pairs (pairs : list (MMDB_entry_data_s * tree)) :
  (2 * List.length pairs <= List.length (flatten_pairs pairs))%nat.
Proof.
  induction pairs as [| [k t] pairs IH]; [cbn; lia |].
  change (flatten_pairs ((k, t) :: pairs))
    with (k :: flatten t ++ flatten_pairs pairs).
  cbn [List.length]. rewrite length_app.
  pose proof (length_flatten_pos t). lia.
Qed.

(** A returned value whose first node is a Map is the value of a Map
    tree, one whose first node is an Array that of an Array tree. *)
Lemma decode_ok_map (e : MMDB_entry_data_s) (q : cursor) (v : PyObject) :
  decode (e :: q) = Ok v ->
  type e = MMDB_DATA_TYPE_MAP ->
  exists pairs rest,
    q = flatten_pairs pairs ++ rest
    /\ List.length pairs = Z.to_nat (data_size e)
    /\ v = PyDict (fill [] (decoded_pairs pairs)).
Proof.
  intros Hrun Hty.
  destruct (decode_ok_tree _ _ Hrun) as (t & rest & Hp & Hwf & ->).
  destruct t as [e' | e' pairs | e' elements];
    cbn [flatten app] in Hp; injection Hp as <- Hq; cbn [wf_tree] in Hwf.
  - rewrite Hty in Hwf. discriminate Hwf.
  - apply andb_true_iff in Hwf as [Hwf _].
    apply andb_true_iff in Hwf as [_ Hsize]. apply Nat.eqb_eq in Hsize.
    exists pairs, rest. cbn [value_of].
    change (fun d kv => PyDict_SetItem d (key_of (fst kv)) (value_of (snd kv)))
      with set_pair.
    rewrite fold_set_pair. auto.
  - rewrite Hty in Hwf. discriminate Hwf.
Qed.

Lemma decode_ok_array (e : MMDB_entry_data_s) (q : cursor) (v : PyObject) :
  decode (e :: q) = Ok v ->
  type e = MMDB_DATA_TYPE_ARRAY ->
  exists elements rest,
    q = flat_map flatten elements ++ rest
    /\ List.length elements = Z.to_nat (data_size e)
    /\ v = PyList (map Some (map value_of elements)).
Proof.
  intros Hrun Hty.
  destruct (decode_ok_tree _ _ Hrun) as (t & rest & Hp & Hwf & ->).
  destruct t as [e' | e' pairs | e' elements];
    cbn [flatten app] in Hp; injection Hp as <- Hq; cbn [wf_tree] in Hwf.
  - rewrite Hty in Hwf. discriminate Hwf.
  - rewrite Hty in Hwf. discriminate Hwf.
  - apply andb_true_iff in Hwf as [Hwf _].
    apply andb_true_iff in Hwf as [_ Hsize]. apply Nat.eqb_eq in Hsize.
    exists elements, rest. cbn [value_of]. rewrite map_map. auto.
Qed.

(** X3.  When a Map node decodes, the dictionary has no repeated key
    and at most as many entries as the node announces; when an Array
    node decodes, the list has exactly as many items as the node
    announces and none of its slots is left NULL. *)
Theorem container_sizes (e : MMDB_entry_data_s) (q : cursor) (v : PyObject) :
  decode (e :: q) = Ok v ->
  (type e = MMDB_DATA_TYPE_MAP ->
   exists d : list (pystr * PyObject),
     v = PyDict d /\ NoDup (map fst d)
     /\ (List.length d <= Z.to_nat (data_size e))%nat)
  /\ (type e = MMDB_DATA_TYPE_ARRAY ->
      exists items : list PyObject,
        v = PyList (map Some items)
        /\ List.length items = Z.to_nat (data_size e)).
Proof.
  intros Hrun. split; intros Hty.
  - destruct (decode_ok_map e q v Hrun Hty) as (pairs & rest & _ & Hlen & ->).
    exists (fill [] (decoded_pairs pairs)).
    split; [reflexivity |]. split; [apply NoDup_fill; constructor |].
    pose proof (length_fill (decoded_pairs pairs) []) as H.
    unfold decoded_pairs in H at 2. rewrite length_map in H.
    cbn [List.length] in H. lia.
  - destruct (decode_ok_array e q v Hrun Hty)
      as (elements & rest & _ & Hlen & ->).
    exists (map value_of elements). rewrite length_map. auto.
Qed.

Lemma container_sizes_witness :
  exists d : list (pystr * PyObject),
    PyDict [([97], PyLong 3); ([98], PyLong 2)] = PyDict d
    /\ NoDup (map fst d) /\ (List.length d <= 3)%nat.
Proof.
  apply (container_sizes (map_node 3)
           [string_node [x61]; uint32_node 1; string_node [x62];
            uint32_node 2; string_node [x61]; uint32_node 3]
           (PyDict [([97], PyLong 3); ([98], PyLong 2)]) eq_refl).
  reflexivity.
Defined.

(** X4.  A container that announces more children than there are nodes
    left in the list never yields a value: an Array of [n] elements
    needs [n] further nodes, a Map of [n] pairs needs [2 n]. *)
Theorem announced_children_must_exist (e : MMDB_entry_data_s) (q : cursor) :
  (type e = MMDB_DATA_TYPE_ARRAY ->
   (List.length q < Z.to_nat (data_size e))%nat ->
   is_ok (decode (e :: q)) = false)
  /\ (type e = MMDB_DATA_TYPE_MAP ->
      (List.length q < 2 * Z.to_nat (data_size e))%nat ->
      is_ok (decode (e :: q)) = false).
Proof.
  split; intros Hty Hlen;
    destruct (decode (e :: q)) as [v | | |] eqn:Hrun; try reflexivity;
    exfalso.
  - destruct (decode_ok_array e q v Hrun Hty)
      as (elements & rest & -> & Hn & _).
    pose proof (length_flatten_elements elements).
    rewrite length_app in Hlen. lia.
  - destruct (decode_ok_map e q v Hrun Hty) as (pairs & rest & -> & Hn & _).
    pose proof (length_flatten_pairs pairs).
    rewrite length_app in Hlen. lia.
Qed.

Lemma announced_children_must_exist_witness :
  is_ok (decode [array_node 4294967295; uint32_node 1; uint32_node 2]) = false
  /\ is_ok (decode [map_node 2; string_node [x61]; uint32_node 1;
                    string_node [x62]]) = false.
Proof.
  split.
  - apply (proj1 (announced_children_must_exist (array_node 4294967295)
                    [uint32_node 1; uint32_node 2])); [reflexivity |].
    cbn [List.length data_size array_node]. lia.
  - apply (proj2 (announced_children_must_exist (map_node 2)
                    [string_node [x61]; uint32_node 1; string_node [x62]]));
      [reflexivity |].
    cbn [List.length data_size map_node]. lia.
Defined.

(** *** Where a failure inside a container comes out *)

Lemma is_ok_forget_cursor (r : result (PyObject * cursor)) :
  is_ok (forget_cursor r) = is_ok r.
Proof. destruct r as [[v p] | | |]; reflexivity. Qed.

(** The loops run through the children that decode and go on with what
    is left to do. *)
Lemma from_map_loop_prefix (recur : cursor -> result (PyObject * cursor))
    (pairs : list (MMDB_entry_data_s * tree)) :
  (forall kv, In kv pairs ->
     is_ok (decode_key (fst kv)) = true
     /\ forall rest d,
         recur (flatten (snd kv) ++ rest)
         = Ok (value_of (snd kv), last (flatten (snd kv)) d :: rest)) ->
  forall m c rest d,
    from_map_loop recur (List.length pairs + m) (c :: flatten_pairs pairs ++ rest) d
    = from_map_loop recur m (last (flatten_pairs pairs) c :: rest)
                    (fold_left set_pair pairs d).
Proof.
  induction pairs as [| [k t] pairs IH]; intros Hrec m c rest d.
  - reflexivity.
  - destruct (Hrec (k, t) (or_introl eq_refl)) as [Hkey Ht].
    cbn [fst snd] in Hkey, Ht.
    change (flatten_pairs ((k, t) :: pairs))
      with (k :: flatten t ++ flatten_pairs pairs).
    cbn [List.length Nat.add app]. rewrite <- app_assoc, from_map_loop_step.
    destruct (decode_key k) as [key | | |] eqn:Ek; try discriminate.
    cbn [bind]. rewrite (Ht _ k). cbn [bind].
    rewrite IH by (intros kv Hin; apply Hrec; right; exact Hin).
    cbn [fold_left].
    change (set_pair d (k, t)) with (PyDict_SetItem d (key_of k) (value_of t)).
    unfold key_of. rewrite Ek, last_cons, last_app_last. reflexivity.
Qed.

Lemma from_array_loop_prefix (recur : cursor -> result (PyObject * cursor))
    (elements : list tree) :
  (forall t, In t elements ->
     forall rest d,
       recur (flatten t ++ rest) = Ok (value_of t, last (flatten t) d :: rest)) ->
  forall m i c rest l,
  exists i' l',
    from_array_loop recur (List.length elements + m) i
                    (c :: flat_map flatten elements ++ rest) l
    = from_array_loop recur m i'
                      (last (flat_map flatten elements) c :: rest) l'.
Proof.
  induction elements as [| t elements IH]; intros Hrec m i c rest l.
  - exists i, l. reflexivity.
  - cbn [List.length Nat.add flat_map from_array_loop next bind].
    rewrite <- app_assoc, (Hrec t (or_introl eq_refl) _ c). cbn [bind].
    destruct (IH (fun t' Hin => Hrec t' (or_intror Hin)) m (i + 1)
                 (last (flatten t) c) rest (PyList_SetItem l i (value_of t)))
      as (i' & l' & Hrun).
    exists i', l'. rewrite Hrun, last_app_last. reflexivity.
Qed.

Lemma length_flatten_child (elements : list tree) (t : tree) :
  In t elements ->
  (List.length (flatten t) <= List.length (flat_map flatten elements))%nat.
Proof.
  induction elements as [| x elements IH]; intros Hin; [contradiction |].
  cbn [flat_map]. rewrite length_app.
  destruct Hin as [-> | Hin]; [lia |]. specialize (IH Hin). lia.
Qed.

Lemma length_flatten_pair_child (pairs : list (MMDB_entry_data_s * tree))
    (kv : MMDB_entry_data_s * tree) :
  In kv pairs ->
  (List.length (flatten (snd kv)) <= List.length (flatten_pairs pairs))%nat.
Proof.
  induction pairs as [| x pairs IH]; intros Hin; [contradiction |].
  change (flatten_pairs (x :: pairs))
    with (fst x :: flatten (snd x) ++ flatten_pairs pairs).
  cbn [List.length]. rewrite length_app.
  destruct Hin as [-> | Hin]; [lia |]. specialize (IH Hin). lia.
Qed.

(** With fuel for the whole list, the children that are well-formed
    trees decode. *)
Lemma children_decode (fuel : nat) (elements : list tree) :
  forallb wf_tree elements = true ->
  (List.length (flat_map flatten elements) <= fuel)%nat ->
  forall t, In t elements ->
    forall rest d,
      from_entry_data_list fuel (flatten t ++ rest)
      = Ok (value_of t, last (flatten t) d :: rest).
Proof.
  intros Hall Hfuel t Hin rest d. rewrite forallb_forall in Hall.
  apply from_entry_data_list_complete; [exact (Hall t Hin) |].
  pose proof (height_le_length t).
  pose proof (length_flatten_child elements t Hin). lia.
Qed.

Lemma pairs_decode (fuel : nat) (pairs : list (MMDB_entry_data_s * tree)) :
  forallb (fun kv => is_ok (decode_key (fst kv)) && wf_tree (snd kv)) pairs
  = true ->
  (List.length (flatten_pairs pairs) <= fuel)%nat ->
  forall kv, In kv pairs ->
    is_ok (decode_key (fst kv)) = true
    /\ forall rest d,
        from_entry_data_list fuel (flatten (snd kv) ++ rest)
        = Ok (value_of (snd kv), last (flatten (snd kv)) d :: rest).
Proof.
  intros Hall Hfuel kv Hin.
  destruct (wf_pairs_inv pairs kv Hall Hin) as [Hk Hw].
  split; [exact Hk |]. intros rest d.
  apply from_entry_data_list_complete; [exact Hw |].
  pose proof (height_le_length (snd kv)).
  pose proof (length_flatten_pair_child pairs kv Hin). lia.
Qed.

(** The decoder on [bad] with the fuel it has inside a longer list. *)
Lemma decode_with_more_fuel (extra : nat) (bad : cursor) :
  forget_cursor (from_entry_data_list (extra + S (List.length bad)) bad)
  = decode bad.
Proof. rewrite decode_any_fuel. reflexivity. Qed.

Lemma decode_unfold (p : cursor) :
  decode p = forget_cursor (from_entry_data_list (S (List.length p)) p).
Proof. reflexivity. Qed.

Lemma split_count (n k : nat) :
  (k < n)%nat -> exists m, n = (k + S m)%nat.
Proof. intros H. exists (n - k - 1)%nat. lia. Qed.

(** X5.  [from_array] with its allocation exit.  When [PyList_New]
    gives no list the call raises [MemoryError] and decodes nothing.
    When it gives one, and the recursive calls on the first elements
    return while the call on the next element fails (an exception, the
    end of the list, undefined behaviour), the Array fails exactly as
    that call does: the first failure comes out unchanged. *)
Theorem array_fails_as_first_failing_element
    (allocated : cursor -> bool)
    (recur : cursor -> result (PyObject * cursor))
    (e : MMDB_entry_data_s) (elements : list tree) (bad : cursor) :
  (forall t, In t elements ->
     forall rest d,
       recur (flatten t ++ rest) = Ok (value_of t, last (flatten t) d :: rest)) ->
  (List.length elements < Z.to_nat (data_size e))%nat ->
  is_ok (recur bad) = false ->
  (allocated (e :: flat_map flatten elements ++ bad) = true ->
   Alloc.from_array allocated recur (e :: flat_map flatten elements ++ bad)
   = recur bad)
  /\ (allocated (e :: flat_map flatten elements ++ bad) = false ->
      Alloc.from_array allocated recur (e :: flat_map flatten elements ++ bad)
      = Raise PyExc_MemoryError EmptyString).
Proof.
  intros Hrec Hlen Hbad. split; intros Halloc;
    unfold Alloc.from_array; cbn [entry_data bind]; rewrite Halloc;
    cbn [negb]; [| reflexivity].
  destruct (split_count _ _ Hlen) as (m & ->).
  destruct (from_array_loop_prefix recur elements Hrec (S m) 0 e bad
              (PyList_New (data_size e)))
    as (i' & l' & ->).
  cbn [from_array_loop next bind].
  destruct (recur bad) as [[v p] | | |];
    [discriminate Hbad | reflexivity ..].
Qed.

Lemma array_fails_as_first_failing_element_witness :
  Alloc.from_array (fun _ => true) (from_entry_data_list 1)
    [array_node 3; uint32_node 1; mk_entry_data (U_uint32 0) 0 13;
     uint32_node 3]
  = Raise MaxMindDB_error "Invalid data type arguments: 13"
  /\ Alloc.from_array (fun _ => false) (from_entry_data_list 1)
       [array_node 4294967295; uint32_node 1; uint32_node 2]
     = Raise PyExc_MemoryError EmptyString.
Proof.
  split.
  - refine (proj1 (array_fails_as_first_failing_element (fun _ => true)
                     (from_entry_data_list 1) (array_node 3)
                     [T_leaf (uint32_node 1)]
                     [mk_entry_data (U_uint32 0) 0 13; uint32_node 3]
                     _ _ eq_refl) eq_refl).
    + intros t [<- | []] rest d. reflexivity.
    + cbn. lia.
  - refine (proj2 (array_fails_as_first_failing_element (fun _ => false)
                     (from_entry_data_list 1) (array_node 4294967295)
                     [T_leaf (uint32_node 1); T_leaf (uint32_node 2)] []
                     _ _ eq_refl) eq_refl).
    + intros t [<- | [<- | []]] rest d; reflexivity.
    + cbn [List.length data_size array_node]. lia.
Defined.

Lemma map_loop_at_next_pair (e : MMDB_entry_data_s)
    (pairs : list (MMDB_entry_data_s * tree)) (rest : cursor) :
  type e = MMDB_DATA_TYPE_MAP ->
  forallb (fun kv => is_ok (decode_key (fst kv)) && wf_tree (snd kv)) pairs
  = true ->
  (List.length pairs < Z.to_nat (data_size e))%nat ->
  exists m,
    decode (e :: flatten_pairs pairs ++ rest)
    = forget_cursor
        (from_map_loop
           (from_entry_data_list
              (List.length (e :: flatten_pairs pairs ++ rest)))
           (S m) (last (flatten_pairs pairs) e :: rest)
           (fold_left set_pair pairs [])).
Proof.
  intros Hty Hall Hlen.
  destruct (split_count _ _ Hlen) as (m & Hn). exists m.
  rewrite decode_unfold. cbn [from_entry_data_list]. rewrite Hty.
  change (MMDB_DATA_TYPE_MAP =? MMDB_DATA_TYPE_MAP) with true.
  cbv iota. unfold from_map. cbn [entry_data bind]. rewrite Hn.
  rewrite from_map_loop_prefix; [reflexivity |].
  apply pairs_decode; [exact Hall |].
  cbn [List.length]. rewrite length_app. lia.
Qed.

(** X6.  A Map whose first pairs are well-formed, followed by a key
    that decodes and a value that fails, fails exactly as that value
    does; when the list ends after the key, that is the
    [InvalidDatabaseError] of the NULL test. *)
Theorem map_fails_as_first_failing_value (e k : MMDB_entry_data_s)
    (pairs : list (MMDB_entry_data_s * tree)) (bad : cursor) :
  type e = MMDB_DATA_TYPE_MAP ->
  forallb (fun kv => is_ok (decode_key (fst kv)) && wf_tree (snd kv)) pairs
  = true ->
  (List.length pairs < Z.to_nat (data_size e))%nat ->
  is_ok (decode_key k) = true ->
  is_ok (decode bad) = false ->
  decode (e :: flatten_pairs pairs ++ k :: bad) = decode bad.
Proof.
  intros Hty Hall Hlen Hkey Hbad.
  destruct (map_loop_at_next_pair e pairs (k :: bad) Hty Hall Hlen)
    as (m & ->).
  rewrite from_map_loop_step.
  destruct (decode_key k) as [key | | |]; try discriminate Hkey.
  cbn [bind].
  set (fuel := List.length (e :: flatten_pairs pairs ++ k :: bad)).
  assert (Hfuel : fuel = (S (List.length (flatten_pairs pairs))
                          + S (List.length bad))%nat).
  { unfold fuel. cbn [List.length]. rewrite length_app. cbn [List.length]. lia. }
  rewrite <- (decode_with_more_fuel (S (List.length (flatten_pairs pairs))))
    in Hbad |- *.
  rewrite <- Hfuel in Hbad |- *.
  destruct (from_entry_data_list fuel bad) as [[v p] | | |];
    [discriminate Hbad | reflexivity ..].
Qed.

Lemma map_fails_as_first_failing_value_witness :
  decode [map_node 2; string_node [x61]; uint32_node 1; string_node [x62]]
  = Raise MaxMindDB_error corrupt_msg.
Proof.
  exact (map_fails_as_first_failing_value (map_node 2) (string_node [x62])
           [(string_node [x61], T_leaf (uint32_node 1))] []
           eq_refl eq_refl ltac:(cbn; lia) eq_refl eq_refl).
Defined.

(** X7.  At a key position of a Map, after any number of well-formed
    pairs: a key node whose text cannot be built makes the Map fail with
    the error of the text constructor, whatever follows the key; and
    when there is no node left for the key, the cursor is read while
    NULL. *)
Theorem map_key_position (e : MMDB_entry_data_s)
    (pairs : list (MMDB_entry_data_s * tree)) :
  type e = MMDB_DATA_TYPE_MAP ->
  forallb (fun kv => is_ok (decode_key (fst kv)) && wf_tree (snd kv)) pairs
  = true ->
  (List.length pairs < Z.to_nat (data_size e))%nat ->
  decode (e :: flatten_pairs pairs) = Undefined NullDeref
  /\ forall (k : MMDB_entry_data_s) (rest : cursor)
            (ex : PyExc) (msg : string),
      decode_key k = Raise ex msg ->
      decode (e :: flatten_pairs pairs ++ k :: rest) = Raise ex msg.
Proof.
  intros Hty Hall Hlen. split.
  - destruct (map_loop_at_next_pair e pairs [] Hty Hall Hlen) as (m & Hrun).
    rewrite app_nil_r in Hrun. rewrite Hrun. reflexivity.
  - intros k rest ex msg Hk.
    destruct (map_loop_at_next_pair e pairs (k :: rest) Hty Hall Hlen)
      as (m & ->).
    rewrite from_map_loop_step, Hk. reflexivity.
Qed.

Lemma map_key_position_witness :
  decode [map_node 2; string_node [x61]; uint32_node 1] = Undefined NullDeref
  /\ decode [map_node 2; string_node [x61]; uint32_node 1;
             string_node [xff]; uint32_node 2]
     = Raise PyExc_UnicodeDecodeError "invalid utf-8".
Proof.
  destruct (map_key_position (map_node 2)
              [(string_node [x61], T_leaf (uint32_node 1))]
              eq_refl eq_refl ltac:(cbn; lia)) as [Hend Hkey].
  split; [exact Hend |].
  exact (Hkey (string_node [xff]) [uint32_node 2] _ _ eq_refl).
Defined.

(** * Further properties of from_uint128 *)

Lemma lor_below_two64 (a b : Z) :
  0 <= a < two64 -> 0 <= b < 256 -> 0 <= Z.lor a b < two64.
Proof.
  intros Ha Hb.
  assert (Hnn : 0 <= Z.lor a b) by (apply Z.lor_nonneg; lia).
  split; [exact Hnn |].
  destruct (Z.eq_dec (Z.lor a b) 0) as [-> | Hnz]; [unfold two64; lia |].
  unfold two64. apply Z.log2_lt_pow2; [lia |].
  rewrite Z.log2_lor by lia.
  assert (Hla : Z.log2 a < 64).
  { destruct (Z.eq_dec a 0) as [-> | Hz]; [cbn; lia |].
    apply Z.log2_lt_pow2; [lia |]. apply Ha. }
  assert (Hlb : Z.log2 b < 64).
  { destruct (Z.eq_dec b 0) as [-> | Hz]; [cbn; lia |].
    apply Z.log2_lt_pow2; [lia |]. lia. }
  lia.
Qed.

Lemma shift_in_range (bs : list byte) : forall acc,
  0 <= acc < two64 -> 0 <= shift_in bs acc < two64.
Proof.
  induction bs as [| b bs IH]; intros acc Hacc; cbn [shift_in]; [exact Hacc |].
  apply IH, lor_below_two64; [| apply byte_val_range].
  apply Z.mod_pos_bound. unfold two64. lia.
Qed.

Lemma code_halves_in_range (v : mmdb_uint128_t) :
  0 <= uint128_high v < two64 /\ 0 <= uint128_low v < two64.
Proof.
  assert (H0 : 0 <= 0 < two64) by (unfold two64; lia).
  assert (Hp : 0 < two64) by (unfold two64; lia).
  destruct v as [a | x]; cbn [uint128_high uint128_low]; split;
    try (apply shift_in_range; exact H0);
    apply Z.mod_pos_bound; exact Hp.
Qed.



(** X9.  The two build configurations agree: a 16-byte array and the
    128-bit scalar holding its big-endian value decode to the same
    integer, which is that value. *)
Theorem from_uint128_same_in_both_builds (e1 e2 : MMDB_entry_data_s)
    (a : list byte) :
  List.length a = 16%nat ->
  payload e1 = U_uint128 (Uint128_bytes a) ->
  payload e2 = U_uint128 (Uint128_scalar (big_endian a)) ->
  from_uint128 e1 = Ok (PyLong (big_endian a))
  /\ from_uint128 e2 = from_uint128 e1.
Proof.
  intros Hlen H1 H2.
  assert (Hwf1 : uint128_wf (Uint128_bytes a)) by exact Hlen.
  assert (Hwf2 : uint128_wf (Uint128_scalar (big_endian a))).
  { cbn [uint128_wf]. pose proof (big_endian_bound a) as Hb.
    rewrite Hlen in Hb. exact Hb. }
  assert (Hrun : forall e v, payload e = U_uint128 v -> uint128_wf v ->
                   from_uint128 e = Ok (PyLong (uint128_value v))).
  { intros e v He Hwf. unfold from_uint128, uint128. rewrite He. cbn [bind].
    destruct (code_halves v Hwf) as [-> ->].
    destruct (halves_in_range v Hwf) as [Hh Hl].
    rewrite PyLong_FromString_16_halves by assumption.
    rewrite (halves_compose v Hwf). reflexivity. }
  rewrite (Hrun e1 _ H1 Hwf1), (Hrun e2 _ H2 Hwf2). split; reflexivity.
Qed.

Lemma from_uint128_same_in_both_builds_witness :
  from_uint128 (uint128_node (Uint128_bytes (repeat x00 14 ++ [x01; x02])))
  = Ok (PyLong 258)
  /\ from_uint128 (uint128_node (Uint128_scalar 258))
     = from_uint128
         (uint128_node (Uint128_bytes (repeat x00 14 ++ [x01; x02]))).
Proof.
  exact (from_uint128_same_in_both_builds
           (uint128_node (Uint128_bytes (repeat x00 14 ++ [x01; x02])))
           (uint128_node (Uint128_scalar 258))
           (repeat x00 14 ++ [x01; x02]) eq_refl eq_refl eq_refl).
Defined.

(** * The exceptions of the decoder *)

Lemma decoder_exception_bind {A B : Type} (r : result A)
    (k : A -> result B) :
  decoder_exception r ->
  (forall a, decoder_exception (k a)) ->
  decoder_exception (bind r k).
Proof. intros Hr Hk. destruct r; cbn [bind decoder_exception] in *; auto. Qed.

Lemma decode_key_exception (k : MMDB_entry_data_s) :
  decoder_exception (decode_key k).
Proof.
  unfold decode_key, utf8_string, PyUnicode_FromStringAndSize, read_buffer.
  destruct (payload k); cbn [bind decoder_exception]; auto.
  destruct (data_size k <=? Z.of_nat (List.length buf));
    cbn [bind decoder_exception]; auto.
  destruct (utf8_decode _); cbn [decoder_exception]; auto.
Qed.

Lemma from_scalar_exception (e : MMDB_entry_data_s) :
  decoder_exception (from_scalar e).
Proof.
  assert (H128 : decoder_exception (from_uint128 e)).
  { unfold from_uint128, uint128.
    destruct (payload e) eqn:He; cbn [bind decoder_exception]; auto.
    destruct (code_halves_in_range v) as [Hh Hl].
    rewrite PyLong_FromString_16_halves by assumption. exact I. }
  pose proof (decode_key_exception e) as Hkey.
  unfold decode_key in Hkey.
  unfold from_scalar, bytes, double_value, float_value, uint16,
    uint32, boolean, uint64, int32,
    PyByteArray_FromStringAndSize, read_buffer.
  repeat match goal with
         | |- decoder_exception (if ?b then _ else _) => destruct b
         end;
    try exact H128;
    try (cbn [decoder_exception]; auto; fail);
    try (destruct (utf8_string e) as [u | | |]; cbn [bind] in *; auto;
         destruct (PyUnicode_FromStringAndSize u (data_size e));
         cbn [bind decoder_exception] in *; auto; fail);
    destruct (payload e); cbn [bind decoder_exception]; auto;
    destruct (data_size e <=? Z.of_nat (List.length buf));
    cbn [bind decoder_exception]; auto.
Qed.

Lemma alloc_exception_of_decoder {A : Type} (allocated : cursor -> bool)
    (r : result A) :
  decoder_exception r -> alloc_exception allocated r.
Proof.
  destruct r; cbn [decoder_exception alloc_exception]; intros H;
    [exact I | destruct H; auto | exact I | exact I].
Qed.

Lemma alloc_exception_bind {A B : Type} (allocated : cursor -> bool)
    (r : result A) (k : A -> result B) :
  alloc_exception allocated r ->
  (forall a, alloc_exception allocated (k a)) ->
  alloc_exception allocated (bind r k).
Proof. intros Hr Hk. destruct r; cbn [bind alloc_exception] in *; auto. Qed.

Lemma from_map_loop_exception (allocated : cursor -> bool)
    (recur : cursor -> result (PyObject * cursor)) :
  (forall p, alloc_exception allocated (recur p)) ->
  forall n p d, alloc_exception allocated (from_map_loop recur n p d).
Proof.
  intros Hrec. induction n as [| n IH]; intros p d; [exact I |].
  destruct p as [| c [| k q]]; try exact I.
  rewrite from_map_loop_step.
  apply alloc_exception_bind;
    [apply alloc_exception_of_decoder, decode_key_exception |].
  intros key.
  apply alloc_exception_bind; [apply Hrec |]. intros [value p3]. apply IH.
Qed.

Lemma from_array_loop_exception (allocated : cursor -> bool)
    (recur : cursor -> result (PyObject * cursor)) :
  (forall p, alloc_exception allocated (recur p)) ->
  forall n i p l, alloc_exception allocated (from_array_loop recur n i p l).
Proof.
  intros Hrec. induction n as [| n IH]; intros i p l; [exact I |].
  cbn [from_array_loop].
  apply alloc_exception_bind; [destruct p; exact I |]. intros p1.
  apply alloc_exception_bind; [apply Hrec |]. intros [value p2]. apply IH.
Qed.

Lemma no_memory_exception {A : Type} (allocated : cursor -> bool)
    (p : cursor) :
  allocated p = false ->
  alloc_exception allocated (@Alloc.no_memory A).
Proof.
  intros Hp. right. right. split; [reflexivity |].
  split; [reflexivity |]. exists p. exact Hp.
Qed.

Lemma from_entry_data_list_exception (allocated : cursor -> bool)
    (fuel : nat) :
  forall p,
    alloc_exception allocated (Alloc.from_entry_data_list allocated fuel p).
Proof.
  induction fuel as [| fuel IH]; intros p; [exact I |].
  destruct p as [| e q]; [left; reflexivity |].
  cbn [Alloc.from_entry_data_list].
  destruct (type e =? MMDB_DATA_TYPE_MAP).
  { unfold Alloc.from_map.
    destruct (allocated (e :: q)) eqn:Hp; cbn [negb].
    - cbn [entry_data bind]. apply from_map_loop_exception, IH.
    - exact (no_memory_exception allocated _ Hp). }
  destruct (type e =? MMDB_DATA_TYPE_ARRAY).
  { unfold Alloc.from_array. cbn [entry_data bind].
    destruct (allocated (e :: q)) eqn:Hp; cbn [negb].
    - apply from_array_loop_exception, IH.
    - exact (no_memory_exception allocated _ Hp). }
  destruct (type e =? MMDB_DATA_TYPE_UINT128).
  { apply alloc_exception_bind; [| intros v; exact I].
    unfold Alloc.from_uint128, uint128. cbn [entry_data bind].
    destruct (payload e); cbn [bind alloc_exception]; auto.
    destruct (allocated (e :: q)) eqn:Hp; cbn [negb].
    - destruct (code_halves_in_range v) as [Hh Hl].
      rewrite PyLong_FromString_16_halves by assumption. exact I.
    - exact (no_memory_exception allocated _ Hp). }
  apply alloc_exception_bind; [| intros v; exact I].
  apply alloc_exception_of_decoder, from_scalar_exception.
Qed.

Lemma from_map_loop_ext (recur recur' : cursor -> result (PyObject * cursor)) :
  (forall p, recur p = recur' p) ->
  forall n p d, from_map_loop recur n p d = from_map_loop recur' n p d.
Proof.
  intros Hrec. induction n as [| n IH]; intros p d; [reflexivity |].
  destruct p as [| c [| k q]]; try reflexivity.
  rewrite !from_map_loop_step.
  destruct (decode_key k) as [key | | |]; cbn [bind]; try reflexivity.
  rewrite Hrec.
  destruct (recur' q) as [[value p3] | | |]; cbn [bind]; try reflexivity.
  apply IH.
Qed.

Lemma from_array_loop_ext
    (recur recur' : cursor -> result (PyObject * cursor)) :
  (forall p, recur p = recur' p) ->
  forall n i p l, from_array_loop recur n i p l = from_array_loop recur' n i p l.
Proof.
  intros Hrec. induction n as [| n IH]; intros i p l; [reflexivity |].
  cbn [from_array_loop].
  destruct (next p) as [p1 | | |]; cbn [bind]; try reflexivity.
  rewrite Hrec.
  destruct (recur' p1) as [[value p2] | | |]; cbn [bind]; try reflexivity.
  apply IH.
Qed.

(** With memory for every allocation the decoder with the allocation
    exits is the decoder of the first part. *)
Lemma from_entry_data_list_allocated (allocated : cursor -> bool) :
  (forall q, allocated q = true) ->
  forall fuel p,
    Alloc.from_entry_data_list allocated fuel p = from_entry_data_list fuel p.
Proof.
  intros Hall. induction fuel as [| fuel IH]; intros p; [reflexivity |].
  destruct p as [| e q]; [reflexivity |].
  cbn [Alloc.from_entry_data_list from_entry_data_list].
  unfold Alloc.from_map, Alloc.from_array, Alloc.from_uint128.
  rewrite Hall. cbn [negb entry_data bind].
  destruct (type e =? MMDB_DATA_TYPE_MAP) eqn:Hmap.
  { unfold from_map. cbn [entry_data bind]. apply from_map_loop_ext, IH. }
  destruct (type e =? MMDB_DATA_TYPE_ARRAY) eqn:Harr.
  { unfold from_array. cbn [entry_data bind]. apply from_array_loop_ext, IH. }
  destruct (type e =? MMDB_DATA_TYPE_UINT128) eqn:H128; [| reflexivity].
  apply Z.eqb_eq in H128.
  assert (Hscalar : from_scalar e = from_uint128 e).
  { unfold from_scalar. rewrite H128. reflexivity. }
  rewrite Hscalar. reflexivity.
Qed.

(** X10.  The decoder with its allocation exits sets only three
    exceptions, whatever the node list and whichever allocations give no
    memory: [InvalidDatabaseError] (end of the list, unknown type), the
    [UnicodeDecodeError] of a string or key that is not valid UTF-8, and
    the [MemoryError] of [PyErr_NoMemory], without a message, which
    needs an allocation of [from_map], [from_array] or [from_uint128]
    that gave no memory.  The integer parse of [from_uint128] never
    fails.  With memory for every allocation the decoder is the one of
    the first part, which then sets only the first two. *)
Theorem decode_raises_only (allocated : cursor -> bool) (p : cursor) :
  (forall ex msg,
     Alloc.decode allocated p = Raise ex msg ->
     ex = MaxMindDB_error \/ ex = PyExc_UnicodeDecodeError
     \/ (ex = PyExc_MemoryError /\ msg = EmptyString
         /\ exists q, allocated q = false))
  /\ ((forall q, allocated q = true) ->
      Alloc.decode allocated p = decode p
      /\ forall ex msg,
           decode p = Raise ex msg ->
           ex = MaxMindDB_error \/ ex = PyExc_UnicodeDecodeError).
Proof.
  assert (Hraise : forall ex msg,
             Alloc.decode allocated p = Raise ex msg ->
             ex = MaxMindDB_error \/ ex = PyExc_UnicodeDecodeError
             \/ (ex = PyExc_MemoryError /\ msg = EmptyString
                 /\ exists q, allocated q = false)).
  { intros ex msg Hrun.
    pose proof (from_entry_data_list_exception allocated
                  (S (List.length p)) p) as H.
    unfold Alloc.decode in Hrun.
    destruct (Alloc.from_entry_data_list allocated (S (List.length p)) p)
      as [[v p'] | | |];
      cbn [bind alloc_exception] in *; try discriminate Hrun.
    injection Hrun as <- <-. exact H. }
  split; [exact Hraise |].
  intros Hall.
  assert (Hsame : Alloc.decode allocated p = decode p).
  { unfold Alloc.decode, decode.
    rewrite (from_entry_data_list_allocated allocated Hall). reflexivity. }
  split; [exact Hsame |].
  intros ex msg Hrun. rewrite <- Hsame in Hrun.
  destruct (Hraise ex msg Hrun) as [H | [H | (_ & _ & q & Hq)]]; auto.
  rewrite Hall in Hq. discriminate Hq.
Qed.

Lemma decode_raises_only_witness :
  Alloc.decode (fun _ => false) [array_node 4294967295; uint32_node 1]
  = Raise PyExc_MemoryError EmptyString
  /\ (PyExc_MemoryError = MaxMindDB_error
      \/ PyExc_MemoryError = PyExc_UnicodeDecodeError
      \/ (PyExc_MemoryError = PyExc_MemoryError /\ EmptyString = EmptyString
          /\ exists q : cursor, (fun _ : cursor => false) q = false))
  /\ Alloc.decode (fun _ => true) [array_node 1; string_node [xc3]]
     = decode [array_node 1; string_node [xc3]]
  /\ (PyExc_UnicodeDecodeError = MaxMindDB_error
      \/ PyExc_UnicodeDecodeError = PyExc_UnicodeDecodeError).
Proof.
  split; [reflexivity |].
  split.
  - exact (proj1 (decode_raises_only (fun _ => false)
                    [array_node 4294967295; uint32_node 1])
                 PyExc_MemoryError EmptyString eq_refl).
  - pose proof (proj2 (decode_raises_only (fun _ => true)
                         [array_node 1; string_node [xc3]])
                      (fun _ => eq_refl)) as [Hsame Hraise].
    split; [exact Hsame |].
    exact (Hraise PyExc_UnicodeDecodeError "invalid utf-8"%string eq_refl).
Defined.

(** * Further properties of the bridge and the session *)

Lemma strlen_range (s : list byte) :
  0 <= strlen s <= Z.of_nat (List.length s).
Proof.
  induction s as [| b s IH]; cbn [strlen List.length]; [lia |].
  destruct (Byte.eqb b x00); lia.
Qed.

(** [strlen] sees the whole string exactly when no byte of it is 0. *)
Lemma strlen_full (s : list byte) :
  strlen s = Z.of_nat (List.length s) <-> ~ In x00 s.
Proof.
  induction s as [| b s IH]; cbn [strlen List.length In]; [tauto |].
  pose proof (strlen_range s) as Hr.
  destruct (Byte.eqb b x00) eqn:E.
  - apply byte_dec_bl in E. subst b. split; [lia | tauto].
  - apply eqb_false in E. rewrite Nat2Z.inj_succ. split.
    + intros H [Hb | Hin]; [congruence |]. apply IH; [lia | exact Hin].
    + intros H. assert (Hs : ~ In x00 s) by tauto.
      apply IH in Hs. lia.
Qed.

Section BridgeFurther.

Variables AF_INET AF_INET6 : Z.
Variable getaddrinfo : list byte -> Z * option sockaddr_storage.
Variable inet_ntop : Z -> list byte -> option string.
Variable MMDB_lookup_sockaddr :
  MMDB_s -> sockaddr_storage -> MMDB_lookup_result_s * Z.
Variable MMDB_get_entry_data_list : MMDB_s -> Z -> Z * cursor.
Variable MMDB_get_metadata_as_entry_data_list : MMDB_s -> cursor.
Variable MMDB_strerror : Z -> string.
Variable Metadata_call : list (pystr * PyObject) -> result PyObject.

Local Abbreviation ip_converter := (ip_converter AF_INET AF_INET6 getaddrinfo).
Local Abbreviation parse_args := (parse_args AF_INET AF_INET6 getaddrinfo).
Local Abbreviation get_record :=
  (get_record AF_INET AF_INET6 getaddrinfo inet_ntop MMDB_lookup_sockaddr
              MMDB_get_entry_data_list MMDB_strerror).
Local Abbreviation Reader_get :=
  (Reader_get AF_INET AF_INET6 getaddrinfo inet_ntop MMDB_lookup_sockaddr
              MMDB_get_entry_data_list MMDB_strerror).
Local Abbreviation Reader_get_with_prefix_len :=
  (Reader_get_with_prefix_len AF_INET AF_INET6 getaddrinfo inet_ntop
     MMDB_lookup_sockaddr MMDB_get_entry_data_list MMDB_strerror).
Local Abbreviation Reader_metadata :=
  (Reader_metadata MMDB_get_metadata_as_entry_data_list Metadata_call).
Local Abbreviation corrected_prefix_len := (corrected_prefix_len AF_INET).

(** X11.  A [str] address that holds a null character is refused with
    [TypeError] whatever the resolver would say of it; a [str] without
    one is what [getaddrinfo] makes of it: [ValueError] naming the text
    when the status is not 0, the address copied as it is when there is
    one, [RuntimeError] when there is none. *)
Theorem text_address_conversion (ipstr : list byte) :
  (In x00 ipstr ->
   ip_converter (Arg_str (Some ipstr))
   = Raise PyExc_TypeError "argument 1 contains an embedded null character")
  /\ (~ In x00 ipstr ->
      forall (status : Z) (addresses : option sockaddr_storage),
        getaddrinfo ipstr = (status, addresses) ->
        (status <> 0 ->
         ip_converter (Arg_str (Some ipstr))
         = Raise PyExc_ValueError
             ("'" ++ string_of_list_byte ipstr
              ++ "' does not appear to be an IPv4 or IPv6 address.")%string)
        /\ (status = 0 ->
            forall ai_addr, addresses = Some ai_addr ->
              ip_converter (Arg_str (Some ipstr)) = Ok ai_addr)
        /\ (status = 0 -> addresses = None ->
            ip_converter (Arg_str (Some ipstr))
            = Raise PyExc_RuntimeError
                "getaddrinfo was successful but failed to set the addrinfo")).
Proof.
  split.
  - intros Hin. unfold ip_converter.
    destruct (strlen ipstr =? Z.of_nat (List.length ipstr)) eqn:E;
      [| reflexivity].
    apply Z.eqb_eq, strlen_full in E. contradiction.
  - intros Hnot status addresses Hgai. unfold ip_converter.
    apply strlen_full, Z.eqb_eq in Hnot. rewrite Hnot, Hgai. cbn [negb].
    repeat split.
    + intros Hs. apply Z.eqb_neq in Hs. rewrite Hs. reflexivity.
    + intros -> ai_addr ->. reflexivity.
    + intros -> ->. reflexivity.
Qed.

(** X12.  [get] and [get_with_prefix_len] agree on every session and
    argument: when one returns, the other returns, and the record of
    [get] is the first item of the pair; when one fails, the other
    fails in the same way. *)
Theorem get_is_first_of_get_with_prefix_len (self : Reader_obj)
    (args : list py_arg) :
  match Reader_get_with_prefix_len self args with
  | Ok v =>
      exists record prefix_len,
        v = PyTuple [record; PyLong prefix_len]
        /\ Reader_get self args = Ok record
  | Raise ex msg => Reader_get self args = Raise ex msg
  | Undefined u => Reader_get self args = Undefined u
  | OutOfFuel => Reader_get self args = OutOfFuel
  end.
Proof.
  unfold Reader_get_with_prefix_len, Reader_get.
  destruct (get_record self args) as [[record prefix_len] | | |];
    cbn [bind]; try reflexivity.
  destruct (prefix_len =? -1); [reflexivity |].
  exists record, prefix_len. split; reflexivity.
Qed.

(** X13.  The return value -1 of [get_record] is kept for its error
    exits, each of which has set an exception: a prefix length that
    [get_record] returns is never negative (the engine's netmask is
    unsigned and the correction for an IPv4 address stops at 0).  So the
    test [== -1] of the two callers meets no record: [get] returns the
    record and [get_with_prefix_len] the pair, neither returns NULL
    without an exception ([SystemError]), and an exception of
    [get_record] comes out of both callers unchanged. *)
Theorem prefix_len_is_never_the_error_value (self : Reader_obj)
    (args : list py_arg) :
  match get_record self args with
  | Ok (record, prefix_len) =>
      0 <= prefix_len
      /\ Reader_get self args = Ok record
      /\ Reader_get_with_prefix_len self args
         = Ok (PyTuple [record; PyLong prefix_len])
  | Raise ex msg =>
      Reader_get self args = Raise ex msg
      /\ Reader_get_with_prefix_len self args = Raise ex msg
  | Undefined u =>
      Reader_get self args = Undefined u
      /\ Reader_get_with_prefix_len self args = Undefined u
  | OutOfFuel =>
      Reader_get self args = OutOfFuel
      /\ Reader_get_with_prefix_len self args = OutOfFuel
  end.
Proof.
  assert (Hnonneg : forall record prefix_len,
             get_record self args = Ok (record, prefix_len) ->
             0 <= prefix_len).
  { intros record prefix_len. unfold get_record.
    destruct (mmdb self) as [db |]; [| discriminate].
    destruct (parse_args args) as [sa | | |]; cbn [bind]; try discriminate.
    destruct (ss_family sa =? 0); [discriminate |].
    destruct (MMDB_lookup_sockaddr db sa) as [res mmdb_error].
    destruct (negb (mmdb_error =? MMDB_SUCCESS)).
    { destruct (format_sockaddr inet_ntop sa); cbn [bind]; discriminate. }
    pose proof (corrected_prefix_len_nonneg AF_INET (ss_family sa) db
                  (netmask res)) as Hp.
    destruct (negb (found_entry res)).
    { intros H. injection H as _ <-. exact Hp. }
    destruct (MMDB_get_entry_data_list db (entry res)) as [status l].
    destruct (negb (status =? MMDB_SUCCESS)).
    { destruct (format_sockaddr inet_ntop sa); cbn [bind]; discriminate. }
    destruct (decode l); cbn [bind]; try discriminate.
    intros H. injection H as _ <-. exact Hp. }
  unfold Reader_get, Reader_get_with_prefix_len.
  destruct (get_record self args) as [[record prefix_len] | ex msg | u |];
    cbn [bind]; try (split; reflexivity).
  pose proof (Hnonneg record prefix_len eq_refl) as Hp.
  assert (Hm : (prefix_len =? -1) = false) by (apply Z.eqb_neq; lia).
  rewrite Hm. repeat split. exact Hp.
Qed.

(** X14.  End to end: on an open session, when the engine finds an
    entry and hands over the flattening of a well-formed tree, [get]
    returns the value of the tree and [get_with_prefix_len] returns it
    with the corrected prefix length, which lies between 0 and the
    engine's netmask. *)
Theorem lookup_returns_tree_value (self : Reader_obj) (args : list py_arg)
    (db : MMDB_s) (sa : sockaddr_storage) (res : MMDB_lookup_result_s)
    (t : tree) (rest : cursor) :
  mmdb self = Some db ->
  parse_args args = Ok sa ->
  ss_family sa <> 0 ->
  MMDB_lookup_sockaddr db sa = (res, MMDB_SUCCESS) ->
  found_entry res = true ->
  MMDB_get_entry_data_list db (entry res) = (MMDB_SUCCESS, flatten t ++ rest) ->
  wf_tree t = true ->
  let prefix_len := corrected_prefix_len (ss_family sa) db (netmask res) in
  Reader_get self args = Ok (value_of t)
  /\ Reader_get_with_prefix_len self args
     = Ok (PyTuple [value_of t; PyLong prefix_len])
  /\ 0 <= prefix_len <= Z.of_N (netmask res).
Proof.
  intros Hdb Hsa Hfam Hres Hfound Hlist Hwf prefix_len.
  assert (Hrange : 0 <= prefix_len <= Z.of_N (netmask res)).
  { unfold prefix_len, corrected_prefix_len.
    destruct ((ss_family sa =? AF_INET) && (ip_version db =? 6)); [| lia].
    destruct (Z.of_N (netmask res) >=? 96) eqn:E; lia. }
  assert (Hrec : get_record self args = Ok (value_of t, prefix_len)).
  { rewrite (get_record_after_lookup AF_INET AF_INET6 getaddrinfo inet_ntop
               MMDB_lookup_sockaddr MMDB_get_entry_data_list MMDB_strerror
               self args db sa res Hdb Hsa Hfam Hres).
    rewrite Hfound, Hlist. cbn [negb]. cbv zeta.
    change (MMDB_SUCCESS =? MMDB_SUCCESS) with true. cbn [negb].
    rewrite (decode_complete t rest Hwf). reflexivity. }
  assert (Hm : (prefix_len =? -1) = false) by (apply Z.eqb_neq; lia).
  unfold Reader_get, Reader_get_with_prefix_len.
  rewrite Hrec. cbn [bind]. rewrite Hm. auto.
Qed.

(** X15.  When the engine finds an entry but cannot list its data, the
    lookup raises [InvalidDatabaseError] with the formatted address and
    the engine's diagnostic; when the list is there and the decoder
    raises, the lookup raises what the decoder raised, unchanged. *)
Theorem found_entry_failures (self : Reader_obj) (args : list py_arg)
    (db : MMDB_s) (sa : sockaddr_storage) (res : MMDB_lookup_result_s)
    (status : Z) (entry_data_list : cursor) :
  mmdb self = Some db ->
  parse_args args = Ok sa ->
  ss_family sa <> 0 ->
  MMDB_lookup_sockaddr db sa = (res, MMDB_SUCCESS) ->
  found_entry res = true ->
  MMDB_get_entry_data_list db (entry res) = (status, entry_data_list) ->
  (status <> MMDB_SUCCESS ->
   forall ipstr, inet_ntop (ss_family sa) (s_addr sa) = Some ipstr ->
     get_record self args
     = Raise MaxMindDB_error
         ("Error while looking up data for " ++ ipstr ++ ". "
          ++ MMDB_strerror status)%string)
  /\ (status = MMDB_SUCCESS ->
      forall ex msg, decode entry_data_list = Raise ex msg ->
        get_record self args = Raise ex msg
        /\ Reader_get self args = Raise ex msg).
Proof.
  intros Hdb Hsa Hfam Hres Hfound Hlist.
  pose proof (get_record_after_lookup AF_INET AF_INET6 getaddrinfo inet_ntop
                MMDB_lookup_sockaddr MMDB_get_entry_data_list MMDB_strerror
                self args db sa res Hdb Hsa Hfam Hres) as Hrec.
  rewrite Hfound, Hlist in Hrec. cbn [negb] in Hrec. cbv zeta in Hrec.
  split.
  - intros Hs ipstr Hfmt. apply Z.eqb_neq in Hs.
    rewrite Hs in Hrec. cbn [negb] in Hrec.
    unfold format_sockaddr in Hrec. rewrite Hfmt in Hrec. exact Hrec.
  - intros -> ex msg Hd.
    change (MMDB_SUCCESS =? MMDB_SUCCESS) with true in Hrec.
    cbn [negb] in Hrec. rewrite Hd in Hrec.
    split; [exact Hrec |]. unfold Reader_get. rewrite Hrec. reflexivity.
Qed.

(** X16.  [metadata ()] on an open session: when the metadata list
    decodes to a dictionary, that dictionary is what the Metadata type
    is called with; when it decodes to anything else, or the decoder
    raises, the error is [InvalidDatabaseError] "Error decoding
    metadata." and the decoder's own exception is replaced. *)
Theorem metadata_decoding (self : Reader_obj) (db : MMDB_s) :
  mmdb self = Some db ->
  let entry_data_list := MMDB_get_metadata_as_entry_data_list db in
  (forall d, decode entry_data_list = Ok (PyDict d) ->
             Reader_metadata self = Metadata_call d)
  /\ (forall v, decode entry_data_list = Ok v ->
                (forall d, v <> PyDict d) ->
                Reader_metadata self
                = Raise MaxMindDB_error "Error decoding metadata.")
  /\ (forall ex msg, decode entry_data_list = Raise ex msg ->
                     Reader_metadata self
                     = Raise MaxMindDB_error "Error decoding metadata.").
Proof.
  intros Hdb entry_data_list. unfold Reader_metadata. rewrite Hdb.
  fold entry_data_list. repeat split.
  - intros d ->. reflexivity.
  - intros v -> Hnot. destruct v; try reflexivity.
    exfalso. apply (Hnot entries). reflexivity.
  - intros ex msg ->. reflexivity.
Qed.

End BridgeFurther.

Lemma text_address_conversion_witness :
  ip_converter 2 10 demo_getaddrinfo (Arg_str (Some [x31; x00; x32]))
  = Raise PyExc_TypeError "argument 1 contains an embedded null character"
  /\ ip_converter 2 10 demo_getaddrinfo (Arg_str (Some [x61]))
     = Raise PyExc_ValueError
         "'a' does not appear to be an IPv4 or IPv6 address.".
Proof.
  split.
  - apply (proj1 (text_address_conversion 2 10 demo_getaddrinfo
                    [x31; x00; x32])).
    right. left. reflexivity.
  - refine (proj1 (proj2 (text_address_conversion 2 10 demo_getaddrinfo [x61])
                     _ (-2) None eq_refl) _).
    + intros [H | []]. discriminate H.
    + discriminate.
Defined.

Lemma prefix_len_is_never_the_error_value_witness :
  (0 <= 24
   /\ Reader_get 2 10 demo_getaddrinfo demo_inet_ntop demo_lookup_found
        demo_list_found demo_strerror demo_session [demo_ipv4]
      = Ok (PyDict [([97], PyLong 1)])
   /\ Reader_get_with_prefix_len 2 10 demo_getaddrinfo demo_inet_ntop
        demo_lookup_found demo_list_found demo_strerror demo_session
        [demo_ipv4]
      = Ok (PyTuple [PyDict [([97], PyLong 1)]; PyLong 24]))
  /\ (Reader_get 2 10 demo_getaddrinfo demo_inet_ntop (demo_lookup 0)
        demo_entry_data_list demo_strerror (mk_reader None true) [demo_ipv4]
      = Raise PyExc_ValueError closed_msg
      /\ Reader_get_with_prefix_len 2 10 demo_getaddrinfo demo_inet_ntop
           (demo_lookup 0) demo_entry_data_list demo_strerror
           (mk_reader None true) [demo_ipv4]
         = Raise PyExc_ValueError closed_msg).
Proof.
  split.
  - exact (prefix_len_is_never_the_error_value 2 10 demo_getaddrinfo
             demo_inet_ntop demo_lookup_found demo_list_found demo_strerror
             demo_session [demo_ipv4]).
  - exact (prefix_len_is_never_the_error_value 2 10 demo_getaddrinfo
             demo_inet_ntop (demo_lookup 0) demo_entry_data_list
             demo_strerror (mk_reader None true) [demo_ipv4]).
Defined.

Lemma lookup_returns_tree_value_witness :
  Reader_get 2 10 demo_getaddrinfo demo_inet_ntop demo_lookup_found
             demo_list_found demo_strerror demo_session [demo_ipv4]
  = Ok (PyDict [([97], PyLong 1)])
  /\ Reader_get_with_prefix_len 2 10 demo_getaddrinfo demo_inet_ntop
       demo_lookup_found demo_list_found demo_strerror demo_session
       [demo_ipv4]
     = Ok (PyTuple [PyDict [([97], PyLong 1)]; PyLong 24])
  /\ 0 <= 24 <= 120.
Proof.
  exact (lookup_returns_tree_value 2 10 demo_getaddrinfo demo_inet_ntop
           demo_lookup_found demo_list_found demo_strerror
           demo_session [demo_ipv4] demo_db demo_sockaddr
           (mk_lookup_result true 7 120)
           (T_map (map_node 1) [(string_node [x61], T_leaf (uint32_node 1))])
           [] eq_refl eq_refl ltac:(discriminate) eq_refl eq_refl eq_refl
           eq_refl).
Defined.

Lemma found_entry_failures_witness :
  get_record 2 10 demo_getaddrinfo demo_inet_ntop demo_lookup_found
             (demo_list_broken 7 []) demo_strerror demo_session [demo_ipv4]
  = Raise MaxMindDB_error "Error while looking up data for 4. 7"
  /\ get_record 2 10 demo_getaddrinfo demo_inet_ntop demo_lookup_found
                (demo_list_broken 0 [string_node [xff]]) demo_strerror
                demo_session [demo_ipv4]
     = Raise PyExc_UnicodeDecodeError "invalid utf-8".
Proof.
  split.
  - refine (proj1 (found_entry_failures 2 10 demo_getaddrinfo demo_inet_ntop
                     demo_lookup_found (demo_list_broken 7 []) demo_strerror
                     demo_session [demo_ipv4] demo_db demo_sockaddr
                     (mk_lookup_result true 7 120) 7 []
                     eq_refl eq_refl _ eq_refl eq_refl eq_refl)
                  _ "4"%string eq_refl); discriminate.
  - refine (proj1 (proj2 (found_entry_failures 2 10 demo_getaddrinfo
                     demo_inet_ntop demo_lookup_found
                     (demo_list_broken 0 [string_node [xff]]) demo_strerror
                     demo_session [demo_ipv4] demo_db demo_sockaddr
                     (mk_lookup_result true 7 120) 0 [string_node [xff]]
                     eq_refl eq_refl _ eq_refl eq_refl eq_refl)
                  eq_refl _ _ eq_refl)); discriminate.
Defined.

Lemma metadata_decoding_witness :
  Reader_metadata (demo_metadata_list [map_node 0]) demo_Metadata_call
                  demo_session
  = Ok (PyDict [])
  /\ Reader_metadata (demo_metadata_list [string_node [xff]])
                     demo_Metadata_call demo_session
     = Raise MaxMindDB_error "Error decoding metadata.".
Proof.
  split.
  - exact (proj1 (metadata_decoding (demo_metadata_list [map_node 0])
                    demo_Metadata_call demo_session demo_db eq_refl)
                 [] eq_refl).
  - exact (proj2 (proj2 (metadata_decoding
                    (demo_metadata_list [string_node [xff]])
                    demo_Metadata_call demo_session demo_db eq_refl))
                 _ _ eq_refl).
Defined.

(** X17.  Leaving a [with] block closes the session whatever state it
    is in: the handle is released exactly when there is one, the
    session is then closed for good ([__enter__] raises [ValueError]),
    and deallocating it afterwards releases nothing, so a handle is
    never released twice.  Deallocating a session that was never closed
    releases what [close ()] would have. *)
Theorem exit_then_dealloc_releases_once (self : Reader_obj) :
  let '(result, self', calls) := Reader__exit__ self in
  result = Py_None
  /\ self' = mk_reader None true
  /\ calls = match mmdb self with
             | Some db => [Call_MMDB_close db; Call_free db]
             | None => []
             end
  /\ calls = Reader_dealloc self
  /\ Reader_dealloc self' = []
  /\ Reader__exit__ self' = (Py_None, self', [])
  /\ Reader__enter__ self'
     = Raise PyExc_ValueError "Attempt to reopen a closed MaxMind DB.".
Proof.
  destruct self as [[db |] c]; cbn; repeat split.
Qed.

(** * Metadata_init *)

Lemma local_GetItem (kwds : list (pystr * PyObject)) (name : string) :
  Metadata.local kwds name
  = match PyDict_GetItem kwds (Metadata.pystr_of_string name) with
    | Some v => inl v
    | None => inr name
    end.
Proof.
  unfold Metadata.local, PyDict_GetItem.
  destruct (find _ kwds); reflexivity.
Qed.

Lemma known_keyword_spec (key : pystr) :
  Metadata.known_keyword key = true
  <-> exists name, In name Metadata.kwlist
                   /\ key = Metadata.pystr_of_string name.
Proof.
  unfold Metadata.known_keyword. rewrite existsb_exists. split.
  - intros (name & Hin & Heq). apply pystr_eqb_eq in Heq. eauto.
  - intros (name & Hin & ->). exists name.
    split; [exact Hin | apply pystr_eqb_refl].
Qed.

(** X18.  A keyword dictionary that has the nine names of the keyword
    list, and no other key, fills the Metadata object: every member is
    the value the dictionary holds under the member's name. *)
Theorem Metadata_init_fills_members (kwds : list (pystr * PyObject)) :
  (forall key value, In (key, value) kwds ->
     exists name, In name Metadata.kwlist
                  /\ key = Metadata.pystr_of_string name) ->
  (forall name, In name Metadata.kwlist ->
     PyDict_GetItem kwds (Metadata.pystr_of_string name) <> None) ->
  exists self : Metadata.obj,
    Metadata.Metadata_init kwds = Metadata.Init_ok self
    /\ let member name := PyDict_GetItem kwds (Metadata.pystr_of_string name) in
       member "binary_format_major_version"%string
       = Some (Metadata.binary_format_major_version self)
       /\ member "binary_format_minor_version"%string
          = Some (Metadata.binary_format_minor_version self)
       /\ member "build_epoch"%string = Some (Metadata.build_epoch self)
       /\ member "database_type"%string = Some (Metadata.database_type self)
       /\ member "description"%string = Some (Metadata.description self)
       /\ member "ip_version"%string = Some (Metadata.ip_version self)
       /\ member "languages"%string = Some (Metadata.languages self)
       /\ member "node_count"%string = Some (Metadata.node_count self)
       /\ member "record_size"%string = Some (Metadata.record_size self).
Proof.
  intros Hknown Hall.
  assert (Hk : forallb (fun kv => Metadata.known_keyword (fst kv)) kwds = true).
  { apply forallb_forall. intros [key value] Hin.
    apply known_keyword_spec, (Hknown key value Hin). }
  unfold Metadata.Metadata_init. rewrite Hk. cbn [negb].
  rewrite !local_GetItem.
  repeat match goal with
         | |- context [PyDict_GetItem kwds (Metadata.pystr_of_string ?n)] =>
             let E := fresh "E" in
             destruct (PyDict_GetItem kwds (Metadata.pystr_of_string n)) eqn:E;
             [| exfalso; apply (Hall n); [cbn; tauto | exact E]]
         end.
  cbn [Metadata.use]. eexists. split; [reflexivity |].
  cbv zeta. cbn. rewrite ?E, ?E0, ?E1, ?E2, ?E3, ?E4, ?E5, ?E6, ?E7.
  repeat split.
Qed.

Lemma Metadata_init_fills_members_witness :
  exists self : Metadata.obj,
    Metadata.Metadata_init demo_kwds = Metadata.Init_ok self
    /\ Some (PyUnicode (Metadata.pystr_of_string "ip_version"))
       = Some (Metadata.ip_version self).
Proof.
  assert (Hknown : forall key value, In (key, value) demo_kwds ->
            exists name, In name Metadata.kwlist
                         /\ key = Metadata.pystr_of_string name).
  { intros key value Hin. unfold demo_kwds in Hin.
    apply in_map_iff in Hin as (name & Heq & Hin).
    exists name. split; [exact Hin | congruence]. }
  assert (Hall : forall name, In name Metadata.kwlist ->
            PyDict_GetItem demo_kwds (Metadata.pystr_of_string name) <> None).
  { intros name Hin. cbn in Hin.
    repeat (destruct Hin as [<- | Hin]; [vm_compute; discriminate |]).
    contradiction. }
  destruct (Metadata_init_fills_members demo_kwds Hknown Hall)
    as (self & Hinit & _ & _ & _ & _ & _ & Hip & _).
  exists self. split; [exact Hinit | exact Hip].
Defined.

(** X19.  A keyword dictionary with any key that is not one of the nine
    names makes [Metadata_init] fail with the [TypeError] of the
    argument parser, also when the nine names are all there. *)
Theorem Metadata_init_refuses_other_keys (kwds : list (pystr * PyObject))
    (key : pystr) (value : PyObject) :
  In (key, value) kwds ->
  (forall name, In name Metadata.kwlist ->
                key <> Metadata.pystr_of_string name) ->
  Metadata.Metadata_init kwds = Metadata.Init_TypeError.
Proof.
  intros Hin Hother. unfold Metadata.Metadata_init.
  destruct (forallb (fun kv => Metadata.known_keyword (fst kv)) kwds) eqn:E;
    [| reflexivity].
  rewrite forallb_forall in E. specialize (E (key, value) Hin).
  apply known_keyword_spec in E as (name & Hname & Heq).
  exfalso. exact (Hother name Hname Heq).
Qed.

Lemma Metadata_init_refuses_other_keys_witness :
  Metadata.Metadata_init (demo_kwds ++ [([120], PyLong 1)])
  = Metadata.Init_TypeError.
Proof.
  apply (Metadata_init_refuses_other_keys
           (demo_kwds ++ [([120], PyLong 1)]) [120] (PyLong 1)).
  - apply in_or_app. right. left. reflexivity.
  - intros name Hin. cbn in Hin.
    repeat (destruct Hin as [<- | Hin]; [vm_compute; discriminate |]).
    contradiction.
Defined.



(** * Type tags and recursion depth *)

(** X21.  A node whose type tag has no case in the switch (pointer,
    container, end marker, any later addition to the format) is
    refused with [InvalidDatabaseError], whatever its payload and
    whatever follows it.  The message gives the tag as [%d] prints a
    [uint32_t]: in decimal below 2^31, and as the negative [int] of the
    same 32 bits from there on (4294967295 reads -1). *)
Theorem unhandled_type_is_refused (e : MMDB_entry_data_s) (rest : cursor) :
  ~ In (type e) handled_types ->
  decode (e :: rest) = Raise MaxMindDB_error (invalid_type_msg (type e)).
Proof.
  intros Hnot. unfold handled_types in Hnot. cbn [In] in Hnot.
  assert (Hne : forall c, In c handled_types -> (type e =? c) = false).
  { intros c Hc. apply Z.eqb_neq. intros Heq. apply Hnot.
    unfold handled_types in Hc. cbn [In] in Hc. rewrite Heq. tauto. }
  unfold decode. cbn [from_entry_data_list]. unfold from_scalar.
  rewrite !Hne by (unfold handled_types; cbn [In]; tauto).
  reflexivity.
Qed.

Lemma unhandled_type_is_refused_witness :
  decode [mk_entry_data (U_uint32 0) 0 1; uint32_node 5]
  = Raise MaxMindDB_error "Invalid data type arguments: 1"
  /\ decode [mk_entry_data (U_uint32 0) 0 4294967295]
     = Raise MaxMindDB_error "Invalid data type arguments: -1"
  /\ decode [mk_entry_data (U_uint32 0) 0 2147483648; uint32_node 5]
     = Raise MaxMindDB_error "Invalid data type arguments: -2147483648".
Proof.
  assert (Hnot : forall t,
             (16 <=? t) = true ->
             ~ In t handled_types).
  { intros t Ht H. apply Z.leb_le in Ht. cbv in H.
    repeat (destruct H as [H | H]; [lia |]). contradiction. }
  split; [| split].
  - apply (unhandled_type_is_refused (mk_entry_data (U_uint32 0) 0 1)
             [uint32_node 5]).
    cbn. intros H. repeat (destruct H as [H | H]; [discriminate H |]).
    contradiction.
  - exact (unhandled_type_is_refused
             (mk_entry_data (U_uint32 0) 0 4294967295) []
             (Hnot 4294967295 eq_refl)).
  - exact (unhandled_type_is_refused
             (mk_entry_data (U_uint32 0) 0 2147483648) [uint32_node 5]
             (Hnot 2147483648 eq_refl)).
Defined.

(** X22.  The recursion of the decoder is never deeper than the list is
    long: with a depth bound of one more than the number of nodes the
    decoder comes to an end on every node list, and a larger bound
    gives the same result. *)
Theorem recursion_depth_bounded_by_length (p : cursor) (extra : nat) :
  from_entry_data_list (S (List.length p)) p <> OutOfFuel
  /\ from_entry_data_list (extra + S (List.length p)) p
     = from_entry_data_list (S (List.length p)) p.
Proof.
  split.
  - apply from_entry_data_list_uses_no_fuel. lia.
  - apply decode_any_fuel.
Qed.

